(** * scripts/django_setup_example.py: the provisioning set-up driver

    A shallow embedding of the script: the [DebtCollectionSetup] client with
    its three network verbs and two code generators, the [main] driver and
    the [__main__] block that turns its result into an exit status.

    The script talks to an environment (process environment, HTTP peer,
    wall clock, working directory).  The environment is a [World] the code
    only reads, and what the code does to it is recorded in a [State] that
    is threaded through every call: the lines printed, the HTTP calls made,
    the number of clock reads and the files written. *)

From Stdlib Require Import ZArith NArith String Ascii List Bool Lia.
From Stdlib Require Import Floats.PrimFloat.
From stdpp Require Import base option gmap strings.
Import ListNotations.

Set Warnings "-register-all".
Local Open Scope list_scope.

(** ** Python values and exceptions *)

Module Py.

(** The values [Response.json()] can decode to.  A decoded object is a
    [dict]; its items are kept in insertion order with distinct keys. *)
Inductive value : Type :=
| VNone
| VBool (b : bool)
| VInt (z : Z)
| VFloat (f : float)
| VStr (s : string)
| VList (items : list value)
| VDict (items : list (string * value)).

(** [bool(v)] as [if v:] and [not v] use it. *)
Definition truthy (v : value) : bool :=
  match v with
  | VNone => false
  | VBool b => b
  | VInt z => negb (z =? 0)%Z
  | VFloat f => negb (PrimFloat.eqb f 0%float)
  | VStr s => negb (String.eqb s "")
  | VList items => match items with [] => false | _ :: _ => true end
  | VDict items => match items with [] => false | _ :: _ => true end
  end.

(** Truthiness of an [Optional[str]] such as the result of [os.getenv]. *)
Definition truthy_str (o : option string) : bool :=
  match o with
  | None => false
  | Some s => negb (String.eqb s "")
  end.

(** [x or y] on optional strings: [x] when it is truthy, otherwise [y]. *)
Definition or_else (x y : option string) : option string :=
  if truthy_str x then x else y.

(** [f"{o}"] for an optional string: [None] is rendered as its name. *)
Definition format_opt (o : option string) : string :=
  match o with
  | None => "None"
  | Some s => s
  end.

Inductive exn : Type :=
| RequestException (detail : string)
    (* requests.RequestException raised by the transport:
       Timeout, ConnectionError, ... *)
| JSONDecodeError
    (* raised by Response.json() on a body that is not JSON *)
| KeyError (key : string)
| TypeError
| AttributeError.

Inductive outcome (A : Type) : Type :=
| Return (a : A)
| Raise (e : exn).
Arguments Return {A} a.
Arguments Raise {A} e.

Fixpoint assoc (k : string) (items : list (string * value)) : option value :=
  match items with
  | [] => None
  | (k', v) :: rest => if String.eqb k k' then Some v else assoc k rest
  end.

(** [v[k]] with a string key. *)
Definition getitem (v : value) (k : string) : outcome value :=
  match v with
  | VDict items =>
      match assoc k items with
      | Some x => Return x
      | None => Raise (KeyError k)
      end
  | _ => Raise TypeError
  end.

(** [v.get(k)]: only a dict has the method; a missing key gives [None]. *)
Definition get (v : value) (k : string) : outcome value :=
  match v with
  | VDict items =>
      match assoc k items with
      | Some x => Return x
      | None => Return VNone
      end
  | _ => Raise AttributeError
  end.

(** What [print] is given: literal text and the formatted fields of an
    f-string, kept apart so that no rendering of values is assumed. *)
Inductive piece : Type :=
| Lit (s : string)
| Val (v : value)
| Int (z : Z)
| Exn (e : exn).

Definition line : Type := list piece.

(** [s * n] *)
Fixpoint repeat_str (s : string) (n : nat) : string :=
  match n with
  | O => ""
  | S n' => s +:+ repeat_str s n'
  end.

End Py.

Import Py.

(** ** [datetime]: the part of the standard module the script uses *)

Module datetime.

(** A naive [datetime] object, as [datetime.now()] returns it ([tzinfo]
    is [None]; [fold] is not rendered by [isoformat]). *)
Record t : Type := mk {
  year : N;
  month : N;
  day : N;
  hour : N;
  minute : N;
  second : N;
  microsecond : N
}.

Definition is_leap (y : N) : bool :=
  ((y mod 4 =? 0) && (negb (y mod 100 =? 0) || (y mod 400 =? 0)))%N.

Definition days_in_month (y m : N) : N :=
  match m with
  | 2 => if is_leap y then 29 else 28
  | 4 | 6 | 9 | 11 => 30
  | _ => 31
  end%N.

(** The range checks of the constructor: every [datetime] satisfies them. *)
Definition valid (d : t) : bool :=
  ((1 <=? year d) && (year d <=? 9999) &&
   (1 <=? month d) && (month d <=? 12) &&
   (1 <=? day d) && (day d <=? days_in_month (year d) (month d)) &&
   (hour d <? 24) && (minute d <? 60) && (second d <? 60) &&
   (microsecond d <? 1000000))%N.

Definition days_before_year (y : N) : N :=
  let p := (y - 1)%N in (p * 365 + p / 4 - p / 100 + p / 400)%N.

Definition days_before_month (y m : N) : N :=
  (match m with
   | 1 => 0 | 2 => 31 | 3 => 59 | 4 => 90 | 5 => 120 | 6 => 151
   | 7 => 181 | 8 => 212 | 9 => 243 | 10 => 273 | 11 => 304 | _ => 334
   end + (if (2 <? m) && is_leap y then 1 else 0))%N.

(** [toordinal()]: day number in the proleptic Gregorian calendar. *)
Definition toordinal (d : t) : N :=
  (days_before_year (year d) + days_before_month (year d) (month d) + day d)%N.

(** Microseconds since the start of day 0; [d2 - d1] of two naive
    datetimes is the difference of these. *)
Definition to_microseconds (d : t) : Z :=
  Z.of_N ((((toordinal d * 24 + hour d) * 60 + minute d) * 60 + second d)
          * 1000000 + microsecond d).

Definition digit (d : N) : ascii := ascii_of_N (48 + d).

Fixpoint dec_aux (fuel : nat) (n : N) (acc : string) : string :=
  match fuel with
  | O => acc
  | S fuel' =>
      let acc' := String (digit (n mod 10)) acc in
      if (n <? 10)%N then acc' else dec_aux fuel' (n / 10) acc'
  end.

(** ["%d" % n]: a number never has more decimal digits than bits. *)
Definition dec (n : N) : string :=
  dec_aux (S (N.to_nat (N.size n))) n "".

Definition zfill (w : nat) (s : string) : string :=
  repeat_str "0" (w - String.length s) +:+ s.

(** ["%0wd" % n] *)
Definition fmt0 (w : nat) (n : N) : string := zfill w (dec n).

Definition format_time (hh mm ss us : N) : string :=
  let hms := fmt0 2 hh +:+ ":" +:+ fmt0 2 mm +:+ ":" +:+ fmt0 2 ss in
  if (us =? 0)%N then hms else hms +:+ "." +:+ fmt0 6 us.

(** [isoformat()] with the default separator and [timespec='auto']. *)
Definition isoformat (d : t) : string :=
  (fmt0 4 (year d) +:+ "-" +:+ fmt0 2 (month d) +:+ "-" +:+ fmt0 2 (day d)
     +:+ "T")
  +:+ format_time (hour d) (minute d) (second d) (microsecond d).

End datetime.

(** ** The shape of an ISO-8601 timestamp, as the specification names it *)

Module Iso8601.

Inductive cls : Type :=
| Digit
| Char (c : ascii).

Definition is_digit (c : ascii) : bool :=
  let n := N_of_ascii c in ((48 <=? n) && (n <=? 57))%N.

Definition accepts (k : cls) (c : ascii) : bool :=
  match k with
  | Digit => is_digit c
  | Char c' => Ascii.eqb c c'
  end.

Fixpoint matches (p : list cls) (s : string) : bool :=
  match p, s with
  | [], EmptyString => true
  | k :: p', String c s' => accepts k c && matches p' s'
  | _, _ => false
  end.

Definition digits (n : nat) : list cls := List.repeat Digit n.

Fixpoint only_digits (s : string) : bool :=
  match s with
  | EmptyString => true
  | String c s' => is_digit c && only_digits s'
  end.

Definition digit_value (c : ascii) : N := (N_of_ascii c - 48)%N.

(** The number a string of decimal digits denotes, most significant
    digit first. *)
Fixpoint number_from (acc : N) (s : string) : N :=
  match s with
  | EmptyString => acc
  | String c s' => number_from (10 * acc + digit_value c)%N s'
  end.

Definition number (s : string) : N := number_from 0 s.

(** YYYY-MM-DDTHH:MM:SS *)
Definition seconds_shape : list cls :=
  digits 4 ++ [Char "-"] ++ digits 2 ++ [Char "-"] ++ digits 2 ++ [Char "T"]
    ++ digits 2 ++ [Char ":"] ++ digits 2 ++ [Char ":"] ++ digits 2.

(** YYYY-MM-DDTHH:MM:SS.ffffff *)
Definition microseconds_shape : list cls :=
  seconds_shape ++ [Char "."] ++ digits 6.

Definition is_timestamp (s : string) : bool :=
  matches seconds_shape s || matches microseconds_shape s.

(** The pattern [test-<ISO8601 timestamp>]. *)
Definition is_test_event_id (s : string) : bool :=
  matches ([Char "t"; Char "e"; Char "s"; Char "t"; Char "-"] ++ seconds_shape) s
  || matches ([Char "t"; Char "e"; Char "s"; Char "t"; Char "-"] ++ microseconds_shape) s.

End Iso8601.

(** ** The environment of the process and the effects of the script *)

Module requests.

Inductive verb : Type := GET | POST.

(** One call of [requests.get] or [requests.post] with its keyword
    arguments. *)
Record Request : Type := mkRequest {
  method : verb;
  url : string;
  json : option value;
  headers : gmap string string;
  timeout : Z
}.

(** A [Response]: the status, the body as text, and what [.json()] decodes
    the body to ([None] when the body is not JSON). *)
Record Response : Type := mkResponse {
  status_code : Z;
  text : string;
  decoded : option value
}.

(** Either the peer answers or the transport raises a [RequestException]
    (timeout, refused connection, DNS failure, ...). *)
Inductive result : Type :=
| Answers (r : Response)
| Fails (detail : string).

End requests.

Import requests.

Record World : Type := mkWorld {
  (** [os.environ] *)
  environ : gmap string string;
  (** the peer: its answer to a call, given the calls made before it *)
  http : list Request -> Request -> requests.result;
  (** what the n-th read of the clock returns *)
  clock : nat -> datetime.t;
  (** requests from 2.27 on raises its own [JSONDecodeError], a subclass of
      [RequestException], from [Response.json()]; older versions let the
      decoder's [ValueError] through *)
  json_error_is_request_exception : bool
}.

Record State : Type := mkState {
  stdout : list line;
  http_log : list Request;
  clock_reads : nat;
  files : gmap string string
}.

Definition initial : State :=
  {| stdout := []; http_log := []; clock_reads := 0; files := ∅ |}.

(** A computation: it may print, call the peer, read the clock and write
    files, and it returns a value or raises. *)
Definition M (A : Type) : Type := State -> outcome A * State.

Definition ret {A} (a : A) : M A := fun s => (Return a, s).

Definition raise {A} (e : exn) : M A := fun s => (Raise e, s).

Definition bind {A B} (m : M A) (k : A -> M B) : M B :=
  fun s =>
    match m s with
    | (Return a, s') => k a s'
    | (Raise e, s') => (Raise e, s')
    end.

Definition lift {A} (o : outcome A) : M A := fun s => (o, s).

(** [try: body except C as e: handler e], where [catches] tells the
    instances of [C]. *)
Definition try_except {A} (body : M A) (catches : exn -> bool)
    (handler : exn -> M A) : M A :=
  fun s =>
    match body s with
    | (Raise e, s') => if catches e then handler e s' else (Raise e, s')
    | r => r
    end.

Notation "'let*' x ':=' m 'in' k" := (bind m (fun x => k))
  (at level 10, x name, m at level 100, k at level 200).
Notation "m >> k" := (bind m (fun _ => k))
  (at level 90, right associativity).

Definition print (l : line) : M unit :=
  fun s => (Return tt,
            {| stdout := stdout s ++ [l]; http_log := http_log s;
               clock_reads := clock_reads s; files := files s |}).

(** [with open(name, 'w') as f: f.write(content)] in the working directory *)
Definition write_file (name content : string) : M unit :=
  fun s => (Return tt,
            {| stdout := stdout s; http_log := http_log s;
               clock_reads := clock_reads s;
               files := <[name := content]> (files s) |}).

(** [open(name).read()] *)
Definition read_file (name : string) (s : State) : option string :=
  files s !! name.

Section Script.

Variable W : World.

Definition os_getenv (name : string) : option string := environ W !! name.

Definition datetime_now : M datetime.t :=
  fun s => (Return (clock W (clock_reads s)),
            {| stdout := stdout s; http_log := http_log s;
               clock_reads := S (clock_reads s); files := files s |}).

Definition call (r : Request) : M Response :=
  fun s =>
    let s' := {| stdout := stdout s; http_log := http_log s ++ [r];
                 clock_reads := clock_reads s; files := files s |} in
    match http W (http_log s) r with
    | Answers resp => (Return resp, s')
    | Fails detail => (Raise (RequestException detail), s')
    end.

Definition requests_get (url : string) (headers : gmap string string)
    (timeout : Z) : M Response :=
  call {| method := GET; url := url; json := None; headers := headers;
          timeout := timeout |}.

Definition requests_post (url : string) (json : value)
    (headers : gmap string string) (timeout : Z) : M Response :=
  call {| method := POST; url := url; json := Some json; headers := headers;
          timeout := timeout |}.

(** [response.json()] *)
Definition response_json (r : Response) : M value :=
  match decoded r with
  | Some v => ret v
  | None => raise JSONDecodeError
  end.

(** [except requests.RequestException] *)
Definition is_RequestException (e : exn) : bool :=
  match e with
  | RequestException _ => true
  | JSONDecodeError => json_error_is_request_exception W
  | _ => false
  end.

End Script.

(** ** The client *)

(** The double-quote character, for text that contains it. *)
Definition dq : string := String (ascii_of_nat 34) "".

(** The newline character. *)
Definition nl : string := String (ascii_of_nat 10) "".

(** The text whose lines are [ls], each one ended by a newline. *)
Fixpoint unlines (ls : list string) : string :=
  match ls with
  | [] => ""
  | l :: rest => l +:+ nl +:+ unlines rest
  end.

Module Templates.

(** The lines of the text [generate_django_models] returns. *)
Definition django_models_lines : list string :=
  [ ""
  ; "# Add this to your Django models.py"
  ; ""
  ; "from django.db import models"
  ; "from django.contrib.auth.models import AbstractUser"
  ; ""
  ; "class Client(models.Model):"
  ; "    " +:+ dq +:+ dq +:+ dq +:+ "Represents a medical client/organization" +:+ dq +:+ dq +:+ dq
  ; "    client_id = models.CharField(max_length=255, unique=True, help_text=" +:+ dq +:+ "Unique client identifier for debt collection system" +:+ dq +:+ ")"
  ; "    name = models.CharField(max_length=255)"
  ; "    contact_email = models.EmailField(blank=True)"
  ; "    is_active = models.BooleanField(default=True)"
  ; "    created_at = models.DateTimeField(auto_now_add=True)"
  ; "    updated_at = models.DateTimeField(auto_now=True)"
  ; "    "
  ; "    class Meta:"
  ; "        ordering = ['name']"
  ; "    "
  ; "    def __str__(self):"
  ; "        return f" +:+ dq +:+ "{self.name} ({self.client_id})" +:+ dq
  ; ""
  ; "class User(AbstractUser):"
  ; "    " +:+ dq +:+ dq +:+ dq +:+ "Extended user model with client association" +:+ dq +:+ dq +:+ dq
  ; "    client = models.ForeignKey("
  ; "        Client, "
  ; "        on_delete=models.CASCADE, "
  ; "        related_name='users',"
  ; "        help_text=" +:+ dq +:+ "Client this user belongs to" +:+ dq
  ; "    )"
  ; "    keycloak_id = models.CharField("
  ; "        max_length=255, "
  ; "        unique=True, "
  ; "        null=True, "
  ; "        blank=True,"
  ; "        help_text=" +:+ dq +:+ "Keycloak user ID for authentication" +:+ dq
  ; "    )"
  ; "    is_provisioned_to_debt_collection = models.BooleanField("
  ; "        default=False,"
  ; "        help_text=" +:+ dq +:+ "Whether user has been synced to debt collection system" +:+ dq
  ; "    )"
  ; "    provisioned_at = models.DateTimeField(null=True, blank=True)"
  ; "    "
  ; "    class Meta:"
  ; "        ordering = ['client__name', 'username']"
  ; "    "
  ; "    def __str__(self):"
  ; "        return f" +:+ dq +:+ "{self.username} - {self.client.name}" +:+ dq
  ; "    "
  ; "    def get_debt_collection_data(self):"
  ; "        " +:+ dq +:+ dq +:+ dq +:+ "Get user data formatted for debt collection API" +:+ dq +:+ dq +:+ dq
  ; "        return {"
  ; "            'keycloak_id': self.keycloak_id,"
  ; "            'email': self.email,"
  ; "            'first_name': self.first_name,"
  ; "            'last_name': self.last_name,"
  ; "            'engagemx_client_id': self.client.client_id,"
  ; "            'is_active': self.is_active"
  ; "        }"
  ].

(** The lines of the text [generate_django_admin] returns. *)
Definition django_admin_lines : list string :=
  [ ""
  ; "# Add this to your Django admin.py"
  ; ""
  ; "from django.contrib import admin"
  ; "from django.contrib import messages"
  ; "from django.utils import timezone"
  ; "from .models import User, Client"
  ; "from .services.debt_collection_service import DebtCollectionService"
  ; ""
  ; "@admin.register(Client)"
  ; "class ClientAdmin(admin.ModelAdmin):"
  ; "    list_display = ['client_id', 'name', 'user_count', 'is_active', 'created_at']"
  ; "    list_filter = ['is_active', 'created_at']"
  ; "    search_fields = ['client_id', 'name', 'contact_email']"
  ; "    readonly_fields = ['created_at', 'updated_at']"
  ; "    actions = ['sync_all_users_to_debt_collection']"
  ; "    "
  ; "    def user_count(self, obj):"
  ; "        return obj.users.count()"
  ; "    user_count.short_description = 'Users'"
  ; "    "
  ; "    def sync_all_users_to_debt_collection(self, request, queryset):"
  ; "        service = DebtCollectionService()"
  ; "        total_synced = 0"
  ; "        "
  ; "        for client in queryset:"
  ; "            users = client.users.filter(is_active=True, keycloak_id__isnull=False)"
  ; "            if users.exists():"
  ; "                users_data = [user.get_debt_collection_data() for user in users]"
  ; "                "
  ; "                try:"
  ; "                    result = service.bulk_provision_users(users_data)"
  ; "                    success_count = result.get('success_count', 0)"
  ; "                    total_synced += success_count"
  ; "                    "
  ; "                    # Update provisioning status"
  ; "                    users.update("
  ; "                        is_provisioned_to_debt_collection=True,"
  ; "                        provisioned_at=timezone.now()"
  ; "                    )"
  ; "                    "
  ; "                except Exception as e:"
  ; "                    messages.error(request, f" +:+ dq +:+ "Failed to sync users for {client.name}: {e}" +:+ dq +:+ ")"
  ; "        "
  ; "        messages.success(request, f" +:+ dq +:+ "Successfully synced {total_synced} users to debt collection system" +:+ dq +:+ ")"
  ; "    "
  ; "    sync_all_users_to_debt_collection.short_description = " +:+ dq +:+ "Sync all users to debt collection" +:+ dq
  ; ""
  ; "@admin.register(User)"
  ; "class UserAdmin(admin.ModelAdmin):"
  ; "    list_display = ['username', 'email', 'client', 'is_active', 'is_provisioned_to_debt_collection', 'provisioned_at']"
  ; "    list_filter = ['is_active', 'is_provisioned_to_debt_collection', 'client', 'provisioned_at']"
  ; "    search_fields = ['username', 'email', 'first_name', 'last_name']"
  ; "    readonly_fields = ['provisioned_at']"
  ; "    actions = ['provision_to_debt_collection', 'sync_updates_to_debt_collection']"
  ; "    "
  ; "    fieldsets = ("
  ; "        (None, {"
  ; "            'fields': ('username', 'password')"
  ; "        }),"
  ; "        ('Personal info', {"
  ; "            'fields': ('first_name', 'last_name', 'email')"
  ; "        }),"
  ; "        ('Client & Permissions', {"
  ; "            'fields': ('client', 'is_active', 'is_staff', 'is_superuser', 'groups', 'user_permissions')"
  ; "        }),"
  ; "        ('Authentication', {"
  ; "            'fields': ('keycloak_id', 'last_login', 'date_joined')"
  ; "        }),"
  ; "        ('Debt Collection Integration', {"
  ; "            'fields': ('is_provisioned_to_debt_collection', 'provisioned_at'),"
  ; "            'classes': ('collapse',)"
  ; "        }),"
  ; "    )"
  ; "    "
  ; "    def provision_to_debt_collection(self, request, queryset):"
  ; "        service = DebtCollectionService()"
  ; "        users_data = []"
  ; "        "
  ; "        for user in queryset:"
  ; "            if user.keycloak_id:"
  ; "                users_data.append(user.get_debt_collection_data())"
  ; "        "
  ; "        if users_data:"
  ; "            try:"
  ; "                result = service.bulk_provision_users(users_data)"
  ; "                success_count = result.get('success_count', 0)"
  ; "                "
  ; "                # Update provisioning status"
  ; "                queryset.filter(keycloak_id__isnull=False).update("
  ; "                    is_provisioned_to_debt_collection=True,"
  ; "                    provisioned_at=timezone.now()"
  ; "                )"
  ; "                "
  ; "                messages.success(request, f" +:+ dq +:+ "Successfully provisioned {success_count} users" +:+ dq +:+ ")"
  ; "                "
  ; "                if result.get('errors'):"
  ; "                    messages.warning(request, f" +:+ dq +:+ "{result['error_count']} errors occurred" +:+ dq +:+ ")"
  ; "                    "
  ; "            except Exception as e:"
  ; "                messages.error(request, f" +:+ dq +:+ "Failed to provision users: {e}" +:+ dq +:+ ")"
  ; "        else:"
  ; "            messages.warning(request, " +:+ dq +:+ "No users with Keycloak IDs found" +:+ dq +:+ ")"
  ; "    "
  ; "    provision_to_debt_collection.short_description = " +:+ dq +:+ "Provision to debt collection system" +:+ dq
  ].

End Templates.

Module DebtCollectionSetup.

Record t : Type := mk {
  api_base_url : string;
  api_key : option string;
  headers : gmap string string
}.

Definition default_api_base_url : string := "http://localhost:8080/api".

Definition sample_users : value :=
  VList
    [ VDict
        [ ("keycloak_id", VStr "test-user-1-uuid");
          ("email", VStr "admin@medical-group-1.com");
          ("first_name", VStr "Dr. John");
          ("last_name", VStr "Doe");
          ("engagemx_client_id", VStr "medical_group_1");
          ("is_active", VBool true) ];
      VDict
        [ ("keycloak_id", VStr "test-user-2-uuid");
          ("email", VStr "manager@hospital-2.com");
          ("first_name", VStr "Jane");
          ("last_name", VStr "Smith");
          ("engagemx_client_id", VStr "hospital_2");
          ("is_active", VBool true) ] ].

Definition test_event (event_id timestamp : string) : value :=
  VDict
    [ ("event_type", VStr "user.created");
      ("event_id", VStr event_id);
      ("timestamp", VStr timestamp);
      ("source", VStr "django-admin-test");
      ("data",
        VDict
          [ ("keycloak_id", VStr "webhook-test-user-uuid");
            ("email", VStr "webhook-test@example.com");
            ("first_name", VStr "Webhook");
            ("last_name", VStr "Test");
            ("engagemx_client_id", VStr "test_client");
            ("is_active", VBool true) ]);
      ("version", VStr "1.0.0") ].

Section Methods.

Variable W : World.

Definition __init__ (api_base_url : string) (api_key : option string) : t :=
  let key := or_else api_key (os_getenv W "PROVISIONING_API_KEY") in
  {| api_base_url := api_base_url;
     api_key := key;
     headers :=
       <["Authorization" := "Bearer " +:+ format_opt key]>
         (<["Content-Type" := "application/json"]> ∅) |}.

Definition test_connection (self : t) : M bool :=
  try_except
    (let* response :=
       requests_get W (api_base_url self +:+ "/webhooks/status")
         (headers self) 10 in
     if (status_code response =? 200)%Z then
       print [Lit "✅ Successfully connected to debt collection API"] >>
       (let* status := response_json response in
        print [Lit "Webhook system status: "; Val status]) >>
       ret true
     else
       print [Lit "❌ Connection failed with status: ";
              Int (status_code response)] >>
       ret false)
    (is_RequestException W)
    (fun e => print [Lit "❌ Connection error: "; Exn e] >> ret false).

Definition provision_sample_users (self : t) : M bool :=
  try_except
    (let* response :=
       requests_post W (api_base_url self +:+ "/provisioning/users/bulk")
         sample_users (headers self) 30 in
     if (status_code response =? 200)%Z then
       let* result := response_json response in
       let* success_count := lift (getitem result "success_count") in
       print [Lit "✅ Successfully provisioned "; Val success_count;
              Lit " sample users"] >>
       let* errors := lift (get result "errors") in
       (if truthy errors then
          let* error_count := lift (getitem result "error_count") in
          print [Lit "⚠️  "; Val error_count; Lit " errors occurred"]
        else ret tt) >>
       ret true
     else
       print [Lit "❌ Provisioning failed with status: ";
              Int (status_code response)] >>
       print [Lit (text response)] >>
       ret false)
    (is_RequestException W)
    (fun e => print [Lit "❌ Provisioning error: "; Exn e] >> ret false).

Definition send_webhook_test (self : t) : M bool :=
  let* id_time := datetime_now W in
  let* stamp_time := datetime_now W in
  let event :=
    test_event ("test-" +:+ datetime.isoformat id_time)
      (datetime.isoformat stamp_time) in
  try_except
    (let* response :=
       requests_post W (api_base_url self +:+ "/webhooks/events")
         event (headers self) 30 in
     if (status_code response =? 200)%Z then
       let* result := response_json response in
       print [Lit "✅ Webhook test successful"] >>
       let* event_id := lift (getitem result "event_id") in
       print [Lit "Event ID: "; Val event_id] >>
       ret true
     else
       print [Lit "❌ Webhook test failed with status: ";
              Int (status_code response)] >>
       ret false)
    (is_RequestException W)
    (fun e => print [Lit "❌ Webhook test error: "; Exn e] >> ret false).

Definition generate_django_models (self : t) : string :=
  unlines Templates.django_models_lines.

Definition generate_django_admin (self : t) : string :=
  unlines Templates.django_admin_lines.

End Methods.

End DebtCollectionSetup.

(** ** The driver *)

Section Driver.

Variable W : World.

Definition main : M bool :=
  print [Lit "🏥 Django Admin - Debt Collection Integration Setup"] >>
  print [Lit (repeat_str "=" 55)] >>
  let api_key := os_getenv W "PROVISIONING_API_KEY" in
  if negb (truthy_str api_key) then
    print [Lit "❌ PROVISIONING_API_KEY environment variable not set"] >>
    print [Lit "Please set it with: export PROVISIONING_API_KEY='your-api-key'"] >>
    ret false
  else
    let setup :=
      DebtCollectionSetup.__init__ W
        DebtCollectionSetup.default_api_base_url api_key in
    print [Lit "1. Testing API connection..."] >>
    let* connected := DebtCollectionSetup.test_connection W setup in
    if negb connected then
      print [Lit "Please ensure the debt collection API is running and accessible"] >>
      ret false
    else
      print [Lit "\n2. Provisioning sample users..."] >>
      let* provisioned := DebtCollectionSetup.provision_sample_users W setup in
      if negb provisioned then
        print [Lit "Sample user provisioning failed"] >>
        ret false
      else
        print [Lit "\n3. Testing webhook functionality..."] >>
        let* delivered := DebtCollectionSetup.send_webhook_test W setup in
        if negb delivered then
          print [Lit "Webhook test failed"] >>
          ret false
        else
          print [Lit "\n4. Generating Django integration code..."] >>
          write_file "django_models_example.py"
            (DebtCollectionSetup.generate_django_models setup) >>
          write_file "django_admin_example.py"
            (DebtCollectionSetup.generate_django_admin setup) >>
          print [Lit "✅ Setup complete!"] >>
          print [Lit "\nGenerated files:"] >>
          print [Lit "- django_models_example.py (model definitions)"] >>
          print [Lit "- django_admin_example.py (admin integration)"] >>
          print [Lit "\nNext steps:"] >>
          print [Lit "1. Copy the model code to your Django models.py"] >>
          print [Lit "2. Copy the admin code to your Django admin.py"] >>
          print [Lit "3. Run Django migrations: python manage.py makemigrations && python manage.py migrate"] >>
          print [Lit "4. Create a Django superuser: python manage.py createsuperuser"] >>
          print [Lit "5. Install the DebtCollectionService from the documentation"] >>
          print [Lit "6. Configure your PROVISIONING_API_KEY in Django settings"] >>
          ret true.

(** The [if __name__ == '__main__'] block: [sys.exit(0 if success else 1)];
    an exception that escapes [main] ends the process with status 1. *)
Definition __main__ (s : State) : Z * State :=
  match main s with
  | (Return success, s') => (if success then 0%Z else 1%Z, s')
  | (Raise _, s') => (1%Z, s')
  end.

End Driver.

(** ** The calls the verbs make *)

(** The keyword arguments of the one HTTP call each verb makes. *)
Definition health_call (self : DebtCollectionSetup.t) : Request :=
  {| method := GET;
     url := DebtCollectionSetup.api_base_url self +:+ "/webhooks/status";
     json := None;
     headers := DebtCollectionSetup.headers self;
     timeout := 10 |}.

Definition bulk_call (self : DebtCollectionSetup.t) : Request :=
  {| method := POST;
     url := DebtCollectionSetup.api_base_url self +:+ "/provisioning/users/bulk";
     json := Some DebtCollectionSetup.sample_users;
     headers := DebtCollectionSetup.headers self;
     timeout := 30 |}.

Definition webhook_call (self : DebtCollectionSetup.t)
    (id_time stamp_time : datetime.t) : Request :=
  {| method := POST;
     url := DebtCollectionSetup.api_base_url self +:+ "/webhooks/events";
     json :=
       Some (DebtCollectionSetup.test_event
               ("test-" +:+ datetime.isoformat id_time)
               (datetime.isoformat stamp_time));
     headers := DebtCollectionSetup.headers self;
     timeout := 30 |}.

(** The [event_id] and [timestamp] members of the event a call posts. *)
Definition posted_field (field : string) (r : Request) : option value :=
  match json r with
  | Some (VDict items) => assoc field items
  | _ => None
  end.

(** Text of 7-bit characters only: written to a file, each character is
    one byte, whatever the encoding of the platform. *)
Definition is_ascii_text (s : string) : bool :=
  forallb (fun c => (N_of_ascii c <? 128)%N) (list_ascii_of_string s).

(** ** How the verbs end *)

(** What a verb returns when its body raises [e]: the only handler is
    [except requests.RequestException], which returns [False]. *)
Definition handled (W : World) (e : exn) : outcome bool :=
  if is_RequestException W e then Return false else Raise e.

(** What the success branch of [provision_sample_users] makes of the decoded
    body: the members it reads, in the order it reads them. *)
Definition read_bulk_result (result : value) : outcome bool :=
  match getitem result "success_count" with
  | Raise e => Raise e
  | Return _ =>
      match get result "errors" with
      | Raise e => Raise e
      | Return errors =>
          if truthy errors then
            match getitem result "error_count" with
            | Raise e => Raise e
            | Return _ => Return true
            end
          else Return true
      end
  end.

(** The same for [send_webhook_test]. *)
Definition read_webhook_result (result : value) : outcome bool :=
  match getitem result "event_id" with
  | Raise e => Raise e
  | Return _ => Return true
  end.

(** ** The states in which [main] calls the verbs *)

Section Stages.

Variable W : World.

(** The client [main] builds once the key is found. *)
Definition configured : DebtCollectionSetup.t :=
  DebtCollectionSetup.__init__ W DebtCollectionSetup.default_api_base_url
    (os_getenv W "PROVISIONING_API_KEY").

Definition banner : M unit :=
  print [Lit "🏥 Django Admin - Debt Collection Integration Setup"] >>
  print [Lit (repeat_str "=" 55)].

Definition at_connection (s : State) : State :=
  snd ((banner >> print [Lit "1. Testing API connection..."]) s).

Definition at_provisioning (s : State) : State :=
  snd (print [Lit "\n2. Provisioning sample users..."]
         (snd (DebtCollectionSetup.test_connection W configured
                 (at_connection s)))).

Definition at_webhook (s : State) : State :=
  snd (print [Lit "\n3. Testing webhook functionality..."]
         (snd (DebtCollectionSetup.provision_sample_users W configured
                 (at_provisioning s)))).

(** The last stretch of [main]: the two files and the closing lines. *)
Definition wrap_up : M unit :=
  print [Lit "\n4. Generating Django integration code..."] >>
  write_file "django_models_example.py"
    (DebtCollectionSetup.generate_django_models configured) >>
  write_file "django_admin_example.py"
    (DebtCollectionSetup.generate_django_admin configured) >>
  print [Lit "✅ Setup complete!"] >>
  print [Lit "\nGenerated files:"] >>
  print [Lit "- django_models_example.py (model definitions)"] >>
  print [Lit "- django_admin_example.py (admin integration)"] >>
  print [Lit "\nNext steps:"] >>
  print [Lit "1. Copy the model code to your Django models.py"] >>
  print [Lit "2. Copy the admin code to your Django admin.py"] >>
  print [Lit "3. Run Django migrations: python manage.py makemigrations && python manage.py migrate"] >>
  print [Lit "4. Create a Django superuser: python manage.py createsuperuser"] >>
  print [Lit "5. Install the DebtCollectionService from the documentation"] >>
  print [Lit "6. Configure your PROVISIONING_API_KEY in Django settings"].

End Stages.

(** ** Elapsed time *)

(** The clock the script reads is the wall clock of the machine, as naive
    local time: it can be set, and it shows an hour twice where the zone
    sets its time back.  When the reads are made is another matter: a
    timeline gives the instant of each read, in microseconds of elapsed
    time. *)
Definition Timeline : Type := nat -> Z.

(** The reads are made one after the other. *)
Definition advancing (instant : Timeline) : Prop :=
  forall n, (instant n < instant (S n))%Z.

(** Two calls, made from the states [s1] and [s2], that start more than one
    millisecond apart. *)
Definition made_apart (instant : Timeline) (s1 s2 : State) : Prop :=
  (1000 < Z.abs (instant (clock_reads s2) - instant (clock_reads s1)))%Z.

(** ** Environments to run the script in *)

Module Samples.

Definition with_key : gmap string string :=
  <["PROVISIONING_API_KEY" := "secret"]> ∅.

Definition no_key : gmap string string := ∅.

(** A clock that advances by one microsecond per read. *)
Definition ticking (n : nat) : datetime.t :=
  datetime.mk 2024 1 1 0 0 0 (N.of_nat n).

(** A clock that stands at midnight. *)
Definition frozen (n : nat) : datetime.t := datetime.mk 2024 1 1 0 0 0 0.

Definition answer (status : Z) (body : string) (decoded : option value)
    : Response :=
  {| status_code := status; text := body; decoded := decoded |}.

(** A peer that gives every call the same answer. *)
Definition always (r : Response) : list Request -> Request -> requests.result :=
  fun _ _ => Answers r.

(** A peer that cannot be reached. *)
Definition unreachable : list Request -> Request -> requests.result :=
  fun _ _ => Fails "connection refused".

Definition world (env : gmap string string)
    (peer : list Request -> Request -> requests.result)
    (time : nat -> datetime.t) (modern : bool) : World :=
  {| environ := env; http := peer; clock := time;
     json_error_is_request_exception := modern |}.

(** The bodies of the specification's scenarios. *)
Definition all_fields : value :=
  VDict [ ("status", VStr "ok");
          ("success_count", VInt 2);
          ("event_id", VStr "test-2024-01-01T00:00:00") ].

Definition partial_success : value :=
  VDict [ ("success_count", VInt 1);
          ("error_count", VInt 1);
          ("errors", VList [VStr "duplicate keycloak_id"]) ].

Definition errors_without_count : value :=
  VDict [ ("success_count", VInt 1);
          ("errors", VList [VStr "duplicate keycloak_id"]) ].

Definition none_provisioned : value := VDict [ ("success_count", VInt 0) ].

Definition ok : Response := answer 200 "{...}" (Some all_fields).

Definition uncounted : Response := answer 200 "{...}" (Some errors_without_count).

Definition zero : Response := answer 200 "{...}" (Some none_provisioned).

Definition partly : Response := answer 200 "{...}" (Some partial_success).

Definition empty_object : Response := answer 200 "{}" (Some (VDict [])).

Definition html_page : Response := answer 200 "<html></html>" None.

Definition unavailable : Response := answer 503 "Service Unavailable" None.

Definition client : DebtCollectionSetup.t :=
  DebtCollectionSetup.__init__ (world with_key (always ok) frozen true)
    DebtCollectionSetup.default_api_base_url None.

(** The wall clock of 3 November 2024 in a zone that sets its time back
    from 02:00 to 01:00, read every half hour from 01:30 on: the third read
    shows 01:30 again. *)
Definition set_back (n : nat) : datetime.t :=
  match n with
  | 0 => datetime.mk 2024 11 3 1 30 0 0
  | 1 => datetime.mk 2024 11 3 1 0 0 0
  | 2 => datetime.mk 2024 11 3 1 30 0 0
  | _ => datetime.mk 2024 11 3 2 0 0 0
  end.

(** A read every half hour. *)
Definition half_hourly : Timeline :=
  fun n => (Z.of_nat n * 1800000000)%Z.

(** A body that is JSON but no object. *)
Definition array : Response := answer 200 "[]" (Some (VList [])).

(** A body that lists no error and gives no count of them. *)
Definition clean : Response :=
  answer 200 "{...}"
    (Some (VDict [ ("success_count", VInt 2); ("errors", VList []) ])).

End Samples.

(** ** The calls of a whole run *)

(** The three calls [main] can make from the state [s], in the order of
    its steps. *)
Definition planned_calls (W : World) (s : State) : list Request :=
  [ health_call (configured W);
    bulk_call (configured W);
    webhook_call (configured W) (clock W (clock_reads s))
      (clock W (S (clock_reads s))) ].

(** A decoded body that is an object. *)
Definition is_object (v : value) : bool :=
  match v with
  | VDict _ => true
  | _ => false
  end.

(** The key is there and each verb, called where [main] calls it, returns
    [True]. *)
Definition all_steps_succeed (W : World) (s : State) : Prop :=
  truthy_str (os_getenv W "PROVISIONING_API_KEY") = true /\
  fst (DebtCollectionSetup.test_connection W (configured W) (at_connection s))
    = Return true /\
  fst (DebtCollectionSetup.provision_sample_users W (configured W)
         (at_provisioning W s)) = Return true /\
  fst (DebtCollectionSetup.send_webhook_test W (configured W) (at_webhook W s))
    = Return true.

(** The working directory once [main] has written its two files. *)
Definition with_generated_files (W : World) (dir : gmap string string)
    : gmap string string :=
  <["django_admin_example.py" :=
      DebtCollectionSetup.generate_django_admin (configured W)]>
    (<["django_models_example.py" :=
         DebtCollectionSetup.generate_django_models (configured W)]> dir).

(** * Properties *)

(** ** Strings *)

#[local] Arguments String.append !s1 s2 /.

Section StringFacts.

Lemma length_app (s t : string) :
  String.length (s +:+ t) = String.length s + String.length t.
Proof. induction s as [|c s IH]; simpl; [reflexivity | now rewrite IH]. Qed.

Lemma app_assoc_str (a b c : string) : (a +:+ b) +:+ c = a +:+ (b +:+ c).
Proof. induction a as [|x a IH]; simpl; [reflexivity | now rewrite IH]. Qed.

Lemma app_nil_r_str (s : string) : s +:+ "" = s.
Proof. induction s as [|c s IH]; simpl; [reflexivity | now rewrite IH]. Qed.

(** Two concatenations with heads of equal length agree piecewise. *)
Lemma app_inj_length (a c b d : string) :
  String.length a = String.length c ->
  a +:+ b = c +:+ d -> a = c /\ b = d.
Proof.
  revert c; induction a as [|x a IH]; intros [|y c] Hlen Heq;
    simpl in *; try discriminate.
  - now split.
  - injection Heq as -> Heq. injection Hlen as Hlen.
    destruct (IH c Hlen Heq) as [-> ->]. now split.
Qed.

Lemma length_repeat_str (c : ascii) (n : nat) :
  String.length (repeat_str (String c "") n) = n.
Proof. induction n as [|n IH]; simpl; [reflexivity | now rewrite IH]. Qed.

End StringFacts.

(** ** Decimal rendering *)

Section DecimalFacts.

Import datetime Iso8601.

Local Open Scope N_scope.

Lemma below_ten (d : N) :
  d < 10 ->
  d = 0 \/ d = 1 \/ d = 2 \/ d = 3 \/ d = 4 \/ d = 5 \/ d = 6 \/ d = 7
  \/ d = 8 \/ d = 9.
Proof. lia. Qed.

Lemma digit_is_digit (d : N) : d < 10 -> is_digit (digit d) = true.
Proof.
  intros H; apply below_ten in H.
  repeat (destruct H as [-> | H]; [reflexivity|]). now subst.
Qed.

Lemma digit_value_digit (d : N) : d < 10 -> digit_value (digit d) = d.
Proof.
  intros H; apply below_ten in H.
  repeat (destruct H as [-> | H]; [reflexivity|]). now subst.
Qed.

Lemma mod_ten_lt (n : N) : n mod 10 < 10.
Proof. apply N.mod_lt; discriminate. Qed.

(** The accumulator of [dec_aux] is only ever appended to. *)
Lemma dec_aux_acc (fuel : nat) :
  forall n acc, dec_aux fuel n acc = dec_aux fuel n "" +:+ acc.
Proof.
  induction fuel as [|fuel IH]; intros n acc; simpl; [reflexivity|].
  destruct (n <? 10); [reflexivity|].
  rewrite (IH _ (String _ acc)), (IH _ (String _ "")), app_assoc_str.
  reflexivity.
Qed.

Lemma dec_aux_step (fuel : nat) (n : N) :
  dec_aux (S fuel) n "" =
  if n <? 10 then String (digit (n mod 10)) ""
  else dec_aux fuel (n / 10) "" +:+ String (digit (n mod 10)) "".
Proof. simpl. destruct (n <? 10); [reflexivity | apply dec_aux_acc]. Qed.

Lemma only_digits_app (s u : string) :
  only_digits (s +:+ u) = only_digits s && only_digits u.
Proof.
  induction s as [|c s IH]; simpl; [reflexivity|].
  now rewrite IH, andb_assoc.
Qed.

Lemma number_from_app (s u : string) :
  forall acc, number_from acc (s +:+ u) = number_from (number_from acc s) u.
Proof. induction s as [|c s IH]; intros acc; simpl; [reflexivity | apply IH]. Qed.

Lemma dec_aux_only_digits (fuel : nat) :
  forall n, only_digits (dec_aux fuel n "") = true.
Proof.
  induction fuel as [|fuel IH]; intros n; [reflexivity|].
  rewrite dec_aux_step. destruct (n <? 10).
  - simpl. now rewrite digit_is_digit by apply mod_ten_lt.
  - rewrite only_digits_app, IH. simpl.
    now rewrite digit_is_digit by apply mod_ten_lt.
Qed.

Lemma pow10_succ (k : nat) : 10 ^ N.of_nat (S k) = 10 * 10 ^ N.of_nat k.
Proof. rewrite Nat2N.inj_succ. apply N.pow_succ_r'. Qed.

(** With enough fuel the digits denote the number rendered. *)
Lemma dec_aux_number (fuel : nat) :
  forall n, n < 10 ^ N.of_nat fuel -> number (dec_aux fuel n "") = n.
Proof.
  induction fuel as [|fuel IH]; intros n Hn.
  - simpl in *. unfold number; simpl. lia.
  - rewrite dec_aux_step. destruct (N.ltb_spec n 10) as [Hlt|Hge].
    + unfold number; simpl.
      rewrite digit_value_digit by apply mod_ten_lt.
      rewrite N.mod_small by assumption. reflexivity.
    + rewrite pow10_succ in Hn.
      assert (Hq : n / 10 < 10 ^ N.of_nat fuel)
        by (apply N.Div0.div_lt_upper_bound; assumption).
      unfold number in *. rewrite number_from_app, (IH _ Hq). simpl.
      rewrite digit_value_digit by apply mod_ten_lt.
      symmetry. apply N.div_mod. discriminate.
Qed.

(** A number below [10^k] has at most [k] digits. *)
Lemma dec_aux_length (fuel : nat) :
  forall n k, n < 10 ^ N.of_nat k -> (1 <= k)%nat ->
    (String.length (dec_aux fuel n "") <= k)%nat.
Proof.
  induction fuel as [|fuel IH]; intros n k Hn Hk; [simpl; lia|].
  rewrite dec_aux_step. destruct (N.ltb_spec n 10) as [Hlt|Hge].
  - simpl. lia.
  - destruct k as [|k]; [lia|]. rewrite pow10_succ in Hn.
    assert (Hq : n / 10 < 10 ^ N.of_nat k)
      by (apply N.Div0.div_lt_upper_bound; assumption).
    destruct k as [|k].
    { simpl in Hn. lia. }
    rewrite length_app. simpl.
    specialize (IH _ (S k) Hq). lia.
Qed.

Lemma dec_fuel (n : N) : n < 10 ^ N.of_nat (S (N.to_nat (N.size n))).
Proof.
  rewrite Nat2N.inj_succ, N2Nat.id.
  apply N.lt_le_trans with (2 ^ N.size n); [apply N.size_gt|].
  apply N.le_trans with (10 ^ N.size n).
  - apply N.pow_le_mono_l. lia.
  - apply N.pow_le_mono_r; lia.
Qed.

Lemma dec_number (n : N) : number (dec n) = n.
Proof. apply dec_aux_number, dec_fuel. Qed.

Lemma dec_only_digits (n : N) : only_digits (dec n) = true.
Proof. apply dec_aux_only_digits. Qed.

Lemma dec_length (n : N) (k : nat) :
  n < 10 ^ N.of_nat k -> (1 <= k)%nat -> (String.length (dec n) <= k)%nat.
Proof. apply dec_aux_length. Qed.

Lemma zeros_only_digits (k : nat) : only_digits (repeat_str "0" k) = true.
Proof. induction k as [|k IH]; simpl; [reflexivity | exact IH]. Qed.

Lemma zeros_number (k : nat) :
  forall s, number_from 0 (repeat_str "0" k +:+ s) = number_from 0 s.
Proof. induction k as [|k IH]; intros s; simpl; [reflexivity | apply IH]. Qed.

(** ["%0wd"] of a number below [10^w]: exactly [w] digits that denote it. *)
Lemma fmt0_length (w : nat) (n : N) :
  n < 10 ^ N.of_nat w -> (1 <= w)%nat -> String.length (fmt0 w n) = w.
Proof.
  intros Hn Hw. unfold fmt0, zfill.
  rewrite length_app, length_repeat_str.
  pose proof (dec_length n w Hn Hw). lia.
Qed.

Lemma fmt0_only_digits (w : nat) (n : N) : only_digits (fmt0 w n) = true.
Proof.
  unfold fmt0, zfill.
  now rewrite only_digits_app, zeros_only_digits, dec_only_digits.
Qed.

Lemma fmt0_number (w : nat) (n : N) : number (fmt0 w n) = n.
Proof. unfold fmt0, zfill, number. rewrite zeros_number. apply dec_number. Qed.

(** Two renderings of the same width followed by anything agree only on
    equal numbers. *)
Lemma fmt0_app_inj (w : nat) (n m : N) (r1 r2 : string) :
  n < 10 ^ N.of_nat w -> m < 10 ^ N.of_nat w -> (1 <= w)%nat ->
  fmt0 w n +:+ r1 = fmt0 w m +:+ r2 -> n = m /\ r1 = r2.
Proof.
  intros Hn Hm Hw Heq.
  apply app_inj_length in Heq as [Hf ->];
    [| now rewrite !fmt0_length by assumption].
  split; [|reflexivity].
  now rewrite <- (fmt0_number w n), <- (fmt0_number w m), Hf.
Qed.

End DecimalFacts.

(** ** [isoformat]: its shape and its injectivity *)

Section IsoformatFacts.

Import datetime Iso8601.

Local Open Scope N_scope.

Lemma matches_app (p q : list cls) :
  forall s u, matches p s = true -> matches q u = true ->
    matches (p ++ q) (s +:+ u) = true.
Proof.
  induction p as [|k p IH]; intros [|c s] u Hp Hq; simpl in *;
    try discriminate.
  - exact Hq.
  - apply andb_true_iff in Hp as [Hk Hp].
    now rewrite Hk, (IH _ _ Hp Hq).
Qed.

Lemma matches_sep (c : ascii) (q : list cls) (u : string) :
  matches q u = true -> matches ([Char c] ++ q) (String c u) = true.
Proof. intros H. simpl. now rewrite Ascii.eqb_refl. Qed.

Lemma matches_digits (s : string) :
  only_digits s = true -> matches (digits (String.length s)) s = true.
Proof.
  unfold digits.
  induction s as [|c s IH]; simpl; [reflexivity|].
  intros H; apply andb_true_iff in H as [Hc Hs].
  now rewrite Hc, (IH Hs).
Qed.

Lemma matches_fmt0 (w : nat) (n : N) :
  n < 10 ^ N.of_nat w -> (1 <= w)%nat -> matches (digits w) (fmt0 w n) = true.
Proof.
  intros Hn Hw. rewrite <- (fmt0_length w n Hn Hw) at 1.
  apply matches_digits, fmt0_only_digits.
Qed.

Lemma days_in_month_le (y m : N) : days_in_month y m <= 31.
Proof.
  unfold days_in_month.
  repeat match goal with
         | |- context [match ?x with _ => _ end] => destruct x
         end; lia.
Qed.

(** Every field of a valid [datetime] fits the width [isoformat] gives it. *)
Lemma valid_widths (d : t) :
  valid d = true ->
  year d < 10 ^ N.of_nat 4 /\ month d < 10 ^ N.of_nat 2 /\
  day d < 10 ^ N.of_nat 2 /\ hour d < 10 ^ N.of_nat 2 /\
  minute d < 10 ^ N.of_nat 2 /\ second d < 10 ^ N.of_nat 2 /\
  microsecond d < 10 ^ N.of_nat 6.
Proof.
  unfold valid. rewrite !andb_true_iff, !N.leb_le, !N.ltb_lt.
  pose proof (days_in_month_le (year d) (month d)).
  change (10 ^ N.of_nat 4) with 10000.
  change (10 ^ N.of_nat 2) with 100.
  change (10 ^ N.of_nat 6) with 1000000.
  lia.
Qed.

Lemma format_time_seconds (hh mm ss : N) :
  format_time hh mm ss 0 =
  fmt0 2 hh +:+ ":" +:+ fmt0 2 mm +:+ ":" +:+ fmt0 2 ss.
Proof. reflexivity. Qed.

Lemma format_time_microseconds (hh mm ss us : N) :
  us <> 0 ->
  format_time hh mm ss us =
  fmt0 2 hh +:+ ":" +:+ fmt0 2 mm +:+ ":" +:+ fmt0 2 ss +:+ "."
    +:+ fmt0 6 us.
Proof.
  intros H. unfold format_time. cbv zeta.
  apply N.eqb_neq in H. rewrite H, !app_assoc_str. reflexivity.
Qed.

Lemma isoformat_unfold (d : t) :
  isoformat d =
  fmt0 4 (year d) +:+ "-" +:+ fmt0 2 (month d) +:+ "-" +:+ fmt0 2 (day d)
    +:+ "T" +:+ format_time (hour d) (minute d) (second d) (microsecond d).
Proof.
  unfold isoformat. rewrite !app_assoc_str. reflexivity.
Qed.

Ltac match_fields :=
  repeat first
    [ apply matches_fmt0; [assumption | lia]
    | apply matches_app; [apply matches_fmt0; [assumption | lia] |]
    | apply matches_sep ].

Lemma format_time_shape (hh mm ss us : N) :
  hh < 10 ^ N.of_nat 2 -> mm < 10 ^ N.of_nat 2 -> ss < 10 ^ N.of_nat 2 ->
  us < 10 ^ N.of_nat 6 ->
  if us =? 0
  then matches (digits 2 ++ [Char ":"] ++ digits 2 ++ [Char ":"] ++ digits 2)
         (format_time hh mm ss us) = true
  else matches (digits 2 ++ [Char ":"] ++ digits 2 ++ [Char ":"] ++ digits 2
                  ++ [Char "."] ++ digits 6)
         (format_time hh mm ss us) = true.
Proof.
  intros Hh Hm Hs Hu. destruct (N.eqb_spec us 0) as [->|Hne].
  - rewrite format_time_seconds. match_fields.
  - rewrite format_time_microseconds by assumption. match_fields.
Qed.

(** [isoformat] of a valid [datetime] is an ISO-8601 timestamp, with
    seconds or with microseconds. *)
Lemma isoformat_shape (d : t) :
  valid d = true ->
  if microsecond d =? 0
  then matches seconds_shape (isoformat d) = true
  else matches microseconds_shape (isoformat d) = true.
Proof.
  intros Hv. destruct (valid_widths d Hv) as (Hy & Hmo & Hd & Hh & Hmi & Hs & Hu).
  pose proof (format_time_shape _ _ _ _ Hh Hmi Hs Hu) as Ht.
  rewrite isoformat_unfold.
  destruct (microsecond d =? 0).
  - unfold seconds_shape. match_fields. exact Ht.
  - unfold microseconds_shape, seconds_shape.
    rewrite <- !List.app_assoc. match_fields. exact Ht.
Qed.

Lemma isoformat_is_timestamp (d : t) :
  valid d = true -> is_timestamp (isoformat d) = true.
Proof.
  intros Hv. pose proof (isoformat_shape d Hv) as H. unfold is_timestamp.
  destruct (microsecond d =? 0); rewrite H; [reflexivity | apply orb_true_r].
Qed.

Lemma test_isoformat_is_test_event_id (d : t) :
  valid d = true -> is_test_event_id ("test-" +:+ isoformat d) = true.
Proof.
  intros Hv. pose proof (isoformat_shape d Hv) as H. unfold is_test_event_id.
  assert (Hpre : forall q u,
             matches ([Char "t"; Char "e"; Char "s"; Char "t"; Char "-"] ++ q)
               ("test-" +:+ u) = matches q u) by reflexivity.
  rewrite !Hpre.
  destruct (microsecond d =? 0); rewrite H;
    [reflexivity | apply orb_true_r].
Qed.

Lemma fmt0_inj (w : nat) (n m : N) : fmt0 w n = fmt0 w m -> n = m.
Proof.
  intros H. now rewrite <- (fmt0_number w n), <- (fmt0_number w m), H.
Qed.

Ltac split_field H :=
  first
    [ apply fmt0_app_inj in H as [? H]; [| assumption | assumption | lia]
    | injection H as H ].

Lemma format_time_inj (h1 m1 s1 u1 h2 m2 s2 u2 : N) :
  h1 < 10 ^ N.of_nat 2 -> m1 < 10 ^ N.of_nat 2 -> s1 < 10 ^ N.of_nat 2 ->
  h2 < 10 ^ N.of_nat 2 -> m2 < 10 ^ N.of_nat 2 -> s2 < 10 ^ N.of_nat 2 ->
  u1 < 10 ^ N.of_nat 6 -> u2 < 10 ^ N.of_nat 6 ->
  format_time h1 m1 s1 u1 = format_time h2 m2 s2 u2 ->
  h1 = h2 /\ m1 = m2 /\ s1 = s2 /\ u1 = u2.
Proof.
  intros Hh1 Hm1 Hs1 Hh2 Hm2 Hs2 Hu1 Hu2 H.
  destruct (N.eq_dec u1 0) as [->|N1], (N.eq_dec u2 0) as [->|N2];
    rewrite ?format_time_seconds, ?format_time_microseconds in H
      by assumption;
    do 4 split_field H.
  - apply fmt0_inj in H. now subst.
  - rewrite <- (app_nil_r_str (fmt0 2 s1)) in H.
    split_field H. discriminate.
  - rewrite <- (app_nil_r_str (fmt0 2 s2)) in H.
    split_field H. discriminate.
  - do 2 split_field H. apply fmt0_inj in H. now subst.
Qed.

(** Distinct valid datetimes have distinct [isoformat] renderings: the
    rendering keeps every field, down to the microsecond. *)
Lemma isoformat_inj (d1 d2 : t) :
  valid d1 = true -> valid d2 = true ->
  isoformat d1 = isoformat d2 -> d1 = d2.
Proof.
  intros V1 V2 H.
  destruct (valid_widths d1 V1) as (Hy1 & Hmo1 & Hd1 & Hh1 & Hmi1 & Hs1 & Hu1).
  destruct (valid_widths d2 V2) as (Hy2 & Hmo2 & Hd2 & Hh2 & Hmi2 & Hs2 & Hu2).
  rewrite !isoformat_unfold in H.
  do 6 split_field H.
  apply format_time_inj in H as (? & ? & ? & ?); try assumption.
  destruct d1, d2; simpl in *; now subst.
Qed.

End IsoformatFacts.

(** ** The network verbs *)

Ltac unfold_run :=
  unfold DebtCollectionSetup.test_connection,
    DebtCollectionSetup.provision_sample_users,
    DebtCollectionSetup.send_webhook_test,
    try_except, bind, ret, raise, lift, print, requests_get, requests_post,
    call, response_json, datetime_now, is_RequestException, getitem, get,
    health_call, bulk_call, webhook_call in *.

Ltac case_split :=
  repeat
    (simpl;
     match goal with
     | |- context [http ?w ?l ?r] => destruct (http w l r) eqn:?
     | |- context [(status_code ?r =? 200)%Z] =>
         destruct (status_code r =? 200)%Z eqn:?
     | |- context [decoded ?r] => destruct (decoded r) eqn:?
     | |- context [json_error_is_request_exception ?w] =>
         destruct (json_error_is_request_exception w) eqn:?
     | |- context [assoc ?k ?l] => destruct (assoc k l) eqn:?
     | |- context [truthy ?v] => destruct (truthy v) eqn:?
     | |- context [match ?x with _ => _ end] => is_var x; destruct x
     end).

Ltac run := unfold handled, read_bulk_result, read_webhook_result;
  unfold_run; case_split; try reflexivity.

Section VerbFacts.

Import DebtCollectionSetup.

Variable W : World.

(** The result of [test_connection], by the peer's answer. *)
Lemma test_connection_result (self : t) (s : State) :
  fst (test_connection W self s) =
  match http W (http_log s) (health_call self) with
  | Fails detail => Return false
  | Answers r =>
      if (status_code r =? 200)%Z then
        match decoded r with
        | Some _ => Return true
        | None => handled W JSONDecodeError
        end
      else Return false
  end.
Proof. run. Qed.

Lemma provision_sample_users_result (self : t) (s : State) :
  fst (provision_sample_users W self s) =
  match http W (http_log s) (bulk_call self) with
  | Fails detail => Return false
  | Answers r =>
      if (status_code r =? 200)%Z then
        match decoded r with
        | Some result =>
            match read_bulk_result result with
            | Raise e => handled W e
            | done => done
            end
        | None => handled W JSONDecodeError
        end
      else Return false
  end.
Proof. run. Qed.

Lemma send_webhook_test_result (self : t) (s : State) :
  fst (send_webhook_test W self s) =
  match http W (http_log s)
          (webhook_call self (clock W (clock_reads s))
             (clock W (S (clock_reads s)))) with
  | Fails detail => Return false
  | Answers r =>
      if (status_code r =? 200)%Z then
        match decoded r with
        | Some result =>
            match read_webhook_result result with
            | Raise e => handled W e
            | done => done
            end
        | None => handled W JSONDecodeError
        end
      else Return false
  end.
Proof. run. Qed.

(** Each verb makes exactly one call, whatever comes of it. *)
Lemma test_connection_log (self : t) (s : State) :
  http_log (snd (test_connection W self s)) = http_log s ++ [health_call self].
Proof. run. Qed.

Lemma provision_sample_users_log (self : t) (s : State) :
  http_log (snd (provision_sample_users W self s)) =
  http_log s ++ [bulk_call self].
Proof. run. Qed.

Lemma send_webhook_test_log (self : t) (s : State) :
  http_log (snd (send_webhook_test W self s)) =
  http_log s ++ [webhook_call self (clock W (clock_reads s))
                   (clock W (S (clock_reads s)))].
Proof. run. Qed.

(** Only [send_webhook_test] reads the clock, and it reads it twice. *)
Lemma test_connection_clock (self : t) (s : State) :
  clock_reads (snd (test_connection W self s)) = clock_reads s.
Proof. run. Qed.

Lemma provision_sample_users_clock (self : t) (s : State) :
  clock_reads (snd (provision_sample_users W self s)) = clock_reads s.
Proof. run. Qed.

Lemma send_webhook_test_clock (self : t) (s : State) :
  clock_reads (snd (send_webhook_test W self s)) = S (S (clock_reads s)).
Proof. run. Qed.

(** No verb writes a file. *)
Lemma test_connection_files (self : t) (s : State) :
  files (snd (test_connection W self s)) = files s.
Proof. run. Qed.

Lemma provision_sample_users_files (self : t) (s : State) :
  files (snd (provision_sample_users W self s)) = files s.
Proof. run. Qed.

Lemma send_webhook_test_files (self : t) (s : State) :
  files (snd (send_webhook_test W self s)) = files s.
Proof. run. Qed.

End VerbFacts.

(** ** Claims about the verbs *)

Section VerbClaims.

Import DebtCollectionSetup.

Variable W : World.

(** C3, as amended.  [test_connection] returns [True] exactly when the GET
    to [{base}/webhooks/status] is answered with status 200 and a body that
    decodes as JSON (the success branch prints the decoded body before it
    returns); it returns [False] for every other status code and for every
    transport error. *)
Theorem test_connection_true_iff (self : t) (s : State) :
  (fst (test_connection W self s) = Return true <->
   exists r body,
     http W (http_log s) (health_call self) = Answers r /\
     status_code r = 200%Z /\ decoded r = Some body) /\
  (forall r, http W (http_log s) (health_call self) = Answers r ->
             status_code r <> 200%Z ->
             fst (test_connection W self s) = Return false) /\
  (forall detail, http W (http_log s) (health_call self) = Fails detail ->
                  fst (test_connection W self s) = Return false).
Proof.
  rewrite test_connection_result.
  destruct (http W (http_log s) (health_call self)) as [r|detail];
    [destruct (Z.eqb_spec (status_code r) 200) as [H200|Hnot];
     [destruct (decoded r) as [body|] eqn:Hbody;
      [|unfold handled; simpl;
        destruct (json_error_is_request_exception W)]|]|];
    repeat split; intros;
    repeat match goal with
           | H : exists _, _ |- _ => destruct H
           | H : _ /\ _ |- _ => destruct H
           | H : Answers _ = Answers _ |- _ => injection H as <-
           end;
    try congruence; eauto.
Qed.

Ltac by_answer :=
  intros;
  rewrite ?test_connection_result, ?provision_sample_users_result,
    ?send_webhook_test_result;
  repeat match goal with
         | H : http _ _ _ = _ |- _ => rewrite H; clear H
         | H : status_code _ = 200%Z |- _ => rewrite H; clear H
         | H : status_code _ <> 200%Z |- _ =>
             apply Z.eqb_neq in H; rewrite H; clear H
         | H : decoded _ = _ |- _ => rewrite H; clear H
         end;
  unfold read_bulk_result, read_webhook_result, getitem, get, handled;
  simpl;
  repeat match goal with
         | H : assoc _ _ = _ |- _ => rewrite H; clear H; simpl
         | H : truthy _ = _ |- _ => rewrite H; clear H; simpl
         end;
  try reflexivity.

(** C2, as amended.  Each verb returns a boolean, and nothing is raised,
    when the transport fails ([False]), when the status is not 200
    ([False]), and when a 200 answer decodes to an object that has the
    members the verb reads ([True]).  A 200 answer whose object lacks such a
    member is not turned into [False]: the [KeyError] of the lookup is no
    [RequestException], and it leaves the verb. *)
Theorem verbs_return_booleans_unless_member_missing (self : t) (s : State) :
  let event_call :=
    webhook_call self (clock W (clock_reads s)) (clock W (S (clock_reads s))) in
  ((forall detail, http W (http_log s) (health_call self) = Fails detail ->
      fst (test_connection W self s) = Return false) /\
   (forall detail, http W (http_log s) (bulk_call self) = Fails detail ->
      fst (provision_sample_users W self s) = Return false) /\
   (forall detail, http W (http_log s) event_call = Fails detail ->
      fst (send_webhook_test W self s) = Return false)) /\
  ((forall r, http W (http_log s) (health_call self) = Answers r ->
      status_code r <> 200%Z ->
      fst (test_connection W self s) = Return false) /\
   (forall r, http W (http_log s) (bulk_call self) = Answers r ->
      status_code r <> 200%Z ->
      fst (provision_sample_users W self s) = Return false) /\
   (forall r, http W (http_log s) event_call = Answers r ->
      status_code r <> 200%Z ->
      fst (send_webhook_test W self s) = Return false)) /\
  ((forall r body, http W (http_log s) (health_call self) = Answers r ->
      status_code r = 200%Z -> decoded r = Some body ->
      fst (test_connection W self s) = Return true) /\
   (forall r items count,
      http W (http_log s) (bulk_call self) = Answers r ->
      status_code r = 200%Z -> decoded r = Some (VDict items) ->
      assoc "success_count" items = Some count ->
      match assoc "errors" items with
      | Some errors =>
          truthy errors = false \/ assoc "error_count" items <> None
      | None => True
      end ->
      fst (provision_sample_users W self s) = Return true) /\
   (forall r items id, http W (http_log s) event_call = Answers r ->
      status_code r = 200%Z -> decoded r = Some (VDict items) ->
      assoc "event_id" items = Some id ->
      fst (send_webhook_test W self s) = Return true)) /\
  ((forall r items, http W (http_log s) (bulk_call self) = Answers r ->
      status_code r = 200%Z -> decoded r = Some (VDict items) ->
      assoc "success_count" items = None ->
      fst (provision_sample_users W self s) = Raise (KeyError "success_count")) /\
   (forall r items count errors,
      http W (http_log s) (bulk_call self) = Answers r ->
      status_code r = 200%Z -> decoded r = Some (VDict items) ->
      assoc "success_count" items = Some count ->
      assoc "errors" items = Some errors -> truthy errors = true ->
      assoc "error_count" items = None ->
      fst (provision_sample_users W self s) = Raise (KeyError "error_count")) /\
   (forall r items, http W (http_log s) event_call = Answers r ->
      status_code r = 200%Z -> decoded r = Some (VDict items) ->
      assoc "event_id" items = None ->
      fst (send_webhook_test W self s) = Raise (KeyError "event_id"))).
Proof.
  intros event_call; subst event_call.
  repeat split; try solve [by_answer].
  intros r items count Hpeer H200 Hbody Hcount Herrors.
  destruct (assoc "errors" items) as [errors|] eqn:He; [|by_answer].
  destruct (truthy errors) eqn:Ht.
  - destruct Herrors as [?|Hc]; [discriminate|].
    destruct (assoc "error_count" items) eqn:Hec; [|contradiction].
    by_answer.
  - by_answer.
Qed.

Lemma provision_sample_users_stdout (self : t) (s : State) r items count :
  http W (http_log s) (bulk_call self) = Answers r ->
  status_code r = 200%Z -> decoded r = Some (VDict items) ->
  assoc "success_count" items = Some count ->
  stdout (snd (provision_sample_users W self s)) =
  stdout s
    ++ [[Lit "✅ Successfully provisioned "; Val count; Lit " sample users"]]
    ++ match assoc "errors" items, assoc "error_count" items with
       | Some errors, Some error_count =>
           if truthy errors
           then [[Lit "⚠️  "; Val error_count; Lit " errors occurred"]]
           else []
       | _, _ => []
       end.
Proof.
  intros Hpeer H200 Hbody Hcount. unfold_run.
  rewrite Hpeer; simpl. rewrite H200; simpl. rewrite Hbody; simpl.
  rewrite Hcount; simpl.
  destruct (assoc "errors" items) as [errors|]; simpl;
    [destruct (truthy errors); simpl;
     [destruct (assoc "error_count" items); simpl|
      destruct (assoc "error_count" items)]|];
    rewrite <- ?app_assoc, ?app_nil_r; reflexivity.
Qed.

(** C5, as amended.  A 200 answer to the bulk POST that carries
    [success_count], a non-empty [errors] member and its [error_count] makes
    [provision_sample_users] return [True]: the count of errors is printed
    as a warning line after the success line, and nothing else comes of it. *)
Theorem partial_success_is_success (self : t) (s : State)
    (r : Response) (items : list (string * value))
    (count errors error_count : value) :
  http W (http_log s) (bulk_call self) = Answers r ->
  status_code r = 200%Z ->
  decoded r = Some (VDict items) ->
  assoc "success_count" items = Some count ->
  assoc "errors" items = Some errors ->
  truthy errors = true ->
  assoc "error_count" items = Some error_count ->
  fst (provision_sample_users W self s) = Return true /\
  stdout (snd (provision_sample_users W self s)) =
  stdout s
    ++ [ [Lit "✅ Successfully provisioned "; Val count; Lit " sample users"];
         [Lit "⚠️  "; Val error_count; Lit " errors occurred"] ].
Proof.
  intros Hpeer H200 Hbody Hcount Herrors Htruthy Herror_count. split.
  - by_answer.
  - rewrite (provision_sample_users_stdout self s r items count) by assumption.
    now rewrite Herrors, Herror_count, Htruthy.
Qed.

(** C4, as amended.  [provision_sample_users] takes no records: whatever
    comes of it, it makes one POST to [{base}/provisioning/users/bulk] whose
    body is the two fixed sample records, with no check before the call;
    and when the answer is a 200 with a [success_count] and no [errors], it
    prints that [success_count], whatever it is, and returns [True]. *)
Theorem provision_sample_users_posts_fixed_records (self : t) (s : State) :
  http_log (snd (provision_sample_users W self s)) =
    http_log s ++ [bulk_call self] /\
  method (bulk_call self) = POST /\
  url (bulk_call self) = api_base_url self +:+ "/provisioning/users/bulk" /\
  (exists first second,
     json (bulk_call self) = Some (VList [VDict first; VDict second])) /\
  (forall r items count,
     http W (http_log s) (bulk_call self) = Answers r ->
     status_code r = 200%Z -> decoded r = Some (VDict items) ->
     assoc "success_count" items = Some count ->
     assoc "errors" items = None ->
     fst (provision_sample_users W self s) = Return true /\
     stdout (snd (provision_sample_users W self s)) =
     stdout s
       ++ [[Lit "✅ Successfully provisioned "; Val count;
            Lit " sample users"]]).
Proof.
  split; [apply provision_sample_users_log|].
  repeat split; [unfold bulk_call, sample_users; simpl; eauto | |].
  - by_answer.
  - rewrite (provision_sample_users_stdout self s r items count) by assumption.
    match goal with H : assoc "errors" items = None |- _ => now rewrite H end.
Qed.

End VerbClaims.

(** C3, as stated, fails: a 200 answer whose body is not JSON (an HTML page,
    say) does not make [test_connection] return [True].  With requests 2.27
    or later the decoding error is caught and the verb returns [False];
    with an older one the error escapes. *)
Lemma test_connection_200_not_true :
  status_code Samples.html_page = 200%Z /\
  fst (DebtCollectionSetup.test_connection
         (Samples.world Samples.with_key (Samples.always Samples.html_page)
            Samples.frozen true)
         Samples.client initial) = Return false /\
  fst (DebtCollectionSetup.test_connection
         (Samples.world Samples.with_key (Samples.always Samples.html_page)
            Samples.frozen false)
         Samples.client initial) = Raise JSONDecodeError.
Proof. repeat split. Qed.

(** The amended C3 on the specification's scenario: a 503 answer gives
    [False], and nothing is raised. *)
Lemma test_connection_503 :
  fst (DebtCollectionSetup.test_connection
         (Samples.world Samples.with_key (Samples.always Samples.unavailable)
            Samples.frozen true)
         Samples.client initial) = Return false.
Proof.
  apply (proj1 (proj2 (test_connection_true_iff _ _ _)) Samples.unavailable);
    [reflexivity | discriminate].
Defined.

(** C2, as stated, fails: a 200 answer whose object lacks a member the verb
    reads is not downgraded to [False]; the verb raises [KeyError]. *)
Lemma missing_member_raises :
  fst (DebtCollectionSetup.provision_sample_users
         (Samples.world Samples.with_key (Samples.always Samples.empty_object)
            Samples.frozen true)
         Samples.client initial) = Raise (KeyError "success_count") /\
  fst (DebtCollectionSetup.provision_sample_users
         (Samples.world Samples.with_key (Samples.always Samples.uncounted)
            Samples.frozen true)
         Samples.client initial) = Raise (KeyError "error_count") /\
  fst (DebtCollectionSetup.send_webhook_test
         (Samples.world Samples.with_key (Samples.always Samples.empty_object)
            Samples.frozen true)
         Samples.client initial) = Raise (KeyError "event_id").
Proof. repeat split. Qed.

(** The amended C2 at work: an unreachable peer makes the bulk POST return
    [False], and an answer with every member makes it return [True]. *)
Lemma verbs_return_booleans_sample :
  fst (DebtCollectionSetup.provision_sample_users
         (Samples.world Samples.with_key Samples.unreachable Samples.frozen true)
         Samples.client initial) = Return false /\
  fst (DebtCollectionSetup.provision_sample_users
         (Samples.world Samples.with_key (Samples.always Samples.partly)
            Samples.frozen true)
         Samples.client initial) = Return true.
Proof.
  split.
  - eapply (proj1 (proj2 (proj1 (verbs_return_booleans_unless_member_missing
                                   _ _ _)))).
    reflexivity.
  - eapply (proj1 (proj2 (proj1 (proj2 (proj2
              (verbs_return_booleans_unless_member_missing _ _ _)))))
              Samples.partly);
      [reflexivity | reflexivity | reflexivity | reflexivity |].
    simpl. right. discriminate.
Defined.

(** C5, as stated, fails: a 200 answer that carries [success_count] and a
    non-empty [errors] member but no [error_count] does not make the verb
    return [True]; the success line is printed and the lookup of
    [error_count] then raises. *)
Lemma partial_success_without_count_raises :
  let W := Samples.world Samples.with_key (Samples.always Samples.uncounted)
             Samples.frozen true in
  status_code Samples.uncounted = 200%Z /\
  decoded Samples.uncounted =
    Some (VDict [ ("success_count", VInt 1);
                  ("errors", VList [VStr "duplicate keycloak_id"]) ]) /\
  truthy (VList [VStr "duplicate keycloak_id"]) = true /\
  fst (DebtCollectionSetup.provision_sample_users W Samples.client initial)
    = Raise (KeyError "error_count") /\
  stdout (snd (DebtCollectionSetup.provision_sample_users W Samples.client
                 initial))
    = [[Lit "✅ Successfully provisioned "; Val (VInt 1);
        Lit " sample users"]].
Proof. repeat split. Qed.

Lemma partial_success_sample :
  fst (DebtCollectionSetup.provision_sample_users
         (Samples.world Samples.with_key (Samples.always Samples.partly)
            Samples.frozen true)
         Samples.client initial) = Return true /\
  stdout (snd (DebtCollectionSetup.provision_sample_users
                 (Samples.world Samples.with_key (Samples.always Samples.partly)
                    Samples.frozen true)
                 Samples.client initial)) =
  stdout initial
    ++ [ [Lit "✅ Successfully provisioned "; Val (VInt 1);
          Lit " sample users"];
         [Lit "⚠️  "; Val (VInt 1); Lit " errors occurred"] ].
Proof.
  apply (partial_success_is_success
           (Samples.world Samples.with_key (Samples.always Samples.partly)
              Samples.frozen true)
           Samples.client initial Samples.partly
           [ ("success_count", VInt 1); ("error_count", VInt 1);
             ("errors", VList [VStr "duplicate keycloak_id"]) ]
           (VInt 1) (VList [VStr "duplicate keycloak_id"]) (VInt 1));
    reflexivity.
Defined.

(** C4, as stated, fails: the verb has no parameter, so no call of it posts
    an empty sequence; and what it returns is [True] for every
    [success_count] the server sends, be it 0 or 2. *)
Lemma provision_sample_users_never_posts_empty :
  ~ (exists W self s r,
       last (http_log (snd (DebtCollectionSetup.provision_sample_users W self s)))
         = Some r /\
       json r = Some (VList [])) /\
  fst (DebtCollectionSetup.provision_sample_users
         (Samples.world Samples.with_key (Samples.always Samples.zero)
            Samples.frozen true)
         Samples.client initial) = Return true /\
  fst (DebtCollectionSetup.provision_sample_users
         (Samples.world Samples.with_key (Samples.always Samples.ok)
            Samples.frozen true)
         Samples.client initial) = Return true.
Proof.
  split; [|split; reflexivity].
  intros (W & self & s & r & Hlast & Hjson).
  rewrite provision_sample_users_log, last_snoc in Hlast.
  injection Hlast as <-. discriminate.
Qed.

(** The amended C4 on the specification's scenario: the server counts 2. *)
Lemma provision_sample_users_two :
  fst (DebtCollectionSetup.provision_sample_users
         (Samples.world Samples.with_key
            (Samples.always (Samples.answer 200 "{...}"
                               (Some (VDict [("success_count", VInt 2)]))))
            Samples.frozen true)
         Samples.client initial) = Return true /\
  stdout (snd (DebtCollectionSetup.provision_sample_users
         (Samples.world Samples.with_key
            (Samples.always (Samples.answer 200 "{...}"
                               (Some (VDict [("success_count", VInt 2)]))))
            Samples.frozen true)
         Samples.client initial)) =
  stdout initial
    ++ [[Lit "✅ Successfully provisioned "; Val (VInt 2); Lit " sample users"]].
Proof.
  eapply (proj2 (proj2 (proj2 (proj2
            (provision_sample_users_posts_fixed_records _ _ _)))));
    reflexivity.
Defined.

(** ** Claims about the client and the event it posts *)

Section ClientClaims.

Import DebtCollectionSetup.

Variable W : World.

(** C9.  Built without a key while [PROVISIONING_API_KEY] is unset, the
    client exists all the same, its key is [None] and its [Authorization]
    header is the text [Bearer None]; the one call each verb makes carries
    that header. *)
Theorem bearer_none_without_key (base : string) (s : State) :
  os_getenv W "PROVISIONING_API_KEY" = None ->
  let self := __init__ W base None in
  api_key self = None /\
  headers self !! "Authorization" = Some "Bearer None" /\
  (exists call,
     http_log (snd (test_connection W self s)) = http_log s ++ [call] /\
     requests.headers call !! "Authorization" = Some "Bearer None") /\
  (exists call,
     http_log (snd (provision_sample_users W self s)) = http_log s ++ [call] /\
     requests.headers call !! "Authorization" = Some "Bearer None") /\
  (exists call,
     http_log (snd (send_webhook_test W self s)) = http_log s ++ [call] /\
     requests.headers call !! "Authorization" = Some "Bearer None").
Proof.
  intros Hunset self.
  assert (Hkey : api_key self = None)
    by (unfold self, __init__, or_else; simpl; exact Hunset).
  assert (Hauth : headers self !! "Authorization" = Some "Bearer None").
  { unfold self, __init__, or_else; simpl. rewrite Hunset. reflexivity. }
  repeat split; try assumption; eexists; split;
    first [ apply test_connection_log | apply provision_sample_users_log
          | apply send_webhook_test_log | exact Hauth ].
Qed.

(** The event [send_webhook_test] posts: its [event_id] is made from the
    first read of the clock, its [timestamp] from the second. *)
Lemma send_webhook_test_posts (self : t) (s : State) :
  exists call,
    last (http_log (snd (send_webhook_test W self s))) = Some call /\
    posted_field "event_id" call =
      Some (VStr ("test-" +:+ datetime.isoformat (clock W (clock_reads s)))) /\
    posted_field "timestamp" call =
      Some (VStr (datetime.isoformat (clock W (S (clock_reads s))))).
Proof.
  eexists. rewrite send_webhook_test_log, last_snoc. repeat split.
Qed.

Lemma test_prefix_inj (a b : string) : "test-" +:+ a = "test-" +:+ b -> a = b.
Proof. intros H. now injection H. Qed.

(** C8, as amended.  For every call, the [event_id] of the event posted is
    ["test-"] followed by the [isoformat] of the time the call reads from
    the clock, which has the shape [test-<ISO8601 timestamp>].  Two calls
    post distinct [event_id]s exactly when the times they read differ, as
    they do when the readings are more than one millisecond apart; calls
    whose readings coincide post the same [event_id], however long after
    one another they are made. *)
Theorem event_id_follows_clock_reading (self : t) (s1 s2 : State) :
  let now1 := clock W (clock_reads s1) in
  let now2 := clock W (clock_reads s2) in
  exists call1 call2,
    last (http_log (snd (send_webhook_test W self s1))) = Some call1 /\
    last (http_log (snd (send_webhook_test W self s2))) = Some call2 /\
    posted_field "event_id" call1 =
      Some (VStr ("test-" +:+ datetime.isoformat now1)) /\
    posted_field "event_id" call2 =
      Some (VStr ("test-" +:+ datetime.isoformat now2)) /\
    (datetime.valid now1 = true ->
     Iso8601.is_test_event_id ("test-" +:+ datetime.isoformat now1) = true) /\
    (now1 = now2 ->
     posted_field "event_id" call1 = posted_field "event_id" call2) /\
    (datetime.valid now1 = true -> datetime.valid now2 = true ->
     now1 <> now2 ->
     posted_field "event_id" call1 <> posted_field "event_id" call2) /\
    (datetime.valid now1 = true -> datetime.valid now2 = true ->
     (1000 < Z.abs (datetime.to_microseconds now2
                    - datetime.to_microseconds now1))%Z ->
     posted_field "event_id" call1 <> posted_field "event_id" call2).
Proof.
  intros now1 now2.
  destruct (send_webhook_test_posts self s1) as (call1 & L1 & E1 & _).
  destruct (send_webhook_test_posts self s2) as (call2 & L2 & E2 & _).
  exists call1, call2. fold now1 in E1. fold now2 in E2.
  assert (Hdistinct : datetime.valid now1 = true -> datetime.valid now2 = true ->
            now1 <> now2 ->
            posted_field "event_id" call1 <> posted_field "event_id" call2).
  { intros V1 V2 Hne. rewrite E1, E2. intros [= Heq].
    apply isoformat_inj in Heq; auto. }
  repeat apply conj; try assumption.
  - apply test_isoformat_is_test_event_id.
  - intros Heq. rewrite E1, E2, Heq. reflexivity.
  - intros V1 V2 Hapart. apply Hdistinct; try assumption.
    intros Heq. rewrite Heq in Hapart. lia.
Qed.

(** C10.  The [event_id] and the [timestamp] of one event come from two
    reads of the clock, the first and the second of the call: when the clock
    has moved between them, the [event_id] does not embed the [timestamp]. *)
Theorem event_id_and_timestamp_from_two_reads (self : t) (s : State) :
  let first := clock W (clock_reads s) in
  let second := clock W (S (clock_reads s)) in
  datetime.valid first = true ->
  datetime.valid second = true ->
  first <> second ->
  clock_reads (snd (send_webhook_test W self s)) = S (S (clock_reads s)) /\
  exists call id stamp,
    last (http_log (snd (send_webhook_test W self s))) = Some call /\
    posted_field "event_id" call = Some (VStr id) /\
    posted_field "timestamp" call = Some (VStr stamp) /\
    id = "test-" +:+ datetime.isoformat first /\
    stamp = datetime.isoformat second /\
    id <> "test-" +:+ stamp.
Proof.
  intros first second V1 V2 Hmoved.
  split; [apply send_webhook_test_clock|].
  destruct (send_webhook_test_posts self s) as (call & L & E & T).
  exists call, ("test-" +:+ datetime.isoformat first),
    (datetime.isoformat second).
  repeat split; try assumption.
  intros Heq. apply test_prefix_inj, isoformat_inj in Heq; auto.
Qed.

End ClientClaims.

Lemma bearer_none_sample :
  let W := Samples.world Samples.no_key (Samples.always Samples.ok)
             Samples.frozen true in
  let self := DebtCollectionSetup.__init__ W "http://localhost:8080/api" None in
  DebtCollectionSetup.api_key self = None /\
  DebtCollectionSetup.headers self !! "Authorization" = Some "Bearer None".
Proof.
  intros W self.
  pose proof (bearer_none_without_key W "http://localhost:8080/api" initial
                eq_refl) as H.
  split; [exact (proj1 H) | exact (proj1 (proj2 H))].
Defined.

Lemma event_id_sample :
  let W := Samples.world Samples.with_key (Samples.always Samples.ok)
             Samples.ticking true in
  let later := {| stdout := []; http_log := []; clock_reads := 4000;
                  files := ∅ |} in
  posted_field "event_id"
    (webhook_call Samples.client (Samples.ticking 0) (Samples.ticking 1))
    = Some (VStr "test-2024-01-01T00:00:00") /\
  posted_field "event_id"
    (webhook_call Samples.client (Samples.ticking 4000) (Samples.ticking 4001))
    = Some (VStr "test-2024-01-01T00:00:00.004000") /\
  Iso8601.is_test_event_id "test-2024-01-01T00:00:00" = true /\
  posted_field "event_id"
    (webhook_call Samples.client (Samples.ticking 0) (Samples.ticking 1)) <>
  posted_field "event_id"
    (webhook_call Samples.client (Samples.ticking 4000) (Samples.ticking 4001)).
Proof.
  intros W later.
  destruct (event_id_follows_clock_reading W Samples.client initial later)
    as (call1 & call2 & L1 & L2 & E1 & E2 & Hshape & _ & _ & Hapart).
  rewrite send_webhook_test_log, last_snoc in L1, L2.
  injection L1 as <-. injection L2 as <-.
  repeat apply conj.
  - exact E1.
  - exact E2.
  - apply Hshape. reflexivity.
  - apply Hapart; [reflexivity | reflexivity | vm_compute; reflexivity].
Defined.

(** C8, as stated, fails: elapsed time between two calls does not make their
    [event_id]s differ.  Where the zone sets its time back an hour, a call
    made at 01:30 and one made an hour of elapsed time later both read
    01:30 on the clock and post the same [event_id]. *)
Lemma calls_apart_same_event_id :
  let W := Samples.world Samples.with_key (Samples.always Samples.ok)
             Samples.set_back true in
  let later :=
    snd (DebtCollectionSetup.send_webhook_test W Samples.client initial) in
  advancing Samples.half_hourly /\
  made_apart Samples.half_hourly initial later /\
  datetime.valid (clock W (clock_reads initial)) = true /\
  datetime.valid (clock W (clock_reads later)) = true /\
  exists call1 call2,
    last (http_log (snd (DebtCollectionSetup.send_webhook_test W
                           Samples.client initial))) = Some call1 /\
    last (http_log (snd (DebtCollectionSetup.send_webhook_test W
                           Samples.client later))) = Some call2 /\
    posted_field "event_id" call1 = Some (VStr "test-2024-11-03T01:30:00") /\
    posted_field "event_id" call2 = Some (VStr "test-2024-11-03T01:30:00").
Proof.
  intros W later. split.
  { intros n. unfold Samples.half_hourly. lia. }
  split; [vm_compute; reflexivity|].
  split; [reflexivity|]. split; [reflexivity|].
  eexists. eexists. repeat split.
Qed.

Lemma two_reads_sample :
  let W := Samples.world Samples.with_key (Samples.always Samples.ok)
             Samples.ticking true in
  clock_reads (snd (DebtCollectionSetup.send_webhook_test W Samples.client
                      initial)) = 2 /\
  exists call id stamp,
    last (http_log (snd (DebtCollectionSetup.send_webhook_test W
                           Samples.client initial))) = Some call /\
    posted_field "event_id" call = Some (VStr id) /\
    posted_field "timestamp" call = Some (VStr stamp) /\
    id = "test-2024-01-01T00:00:00" /\
    stamp = "2024-01-01T00:00:00.000001" /\
    id <> "test-" +:+ stamp.
Proof.
  intros W.
  apply (event_id_and_timestamp_from_two_reads W Samples.client initial);
    [reflexivity | reflexivity | discriminate].
Defined.

(** ** Claims about the driver *)

Section DriverClaims.

Import DebtCollectionSetup.

Variable W : World.

(** [main], stage by stage. *)
Lemma main_stages (s : State) :
  main W s =
  if truthy_str (os_getenv W "PROVISIONING_API_KEY") then
    match test_connection W (configured W) (at_connection s) with
    | (Return true, _) =>
        match provision_sample_users W (configured W) (at_provisioning W s) with
        | (Return true, _) =>
            match send_webhook_test W (configured W) (at_webhook W s) with
            | (Return true, s3) => (Return true, snd (wrap_up W s3))
            | (Return false, s3) =>
                (Return false, snd (print [Lit "Webhook test failed"] s3))
            | (Raise e, s3) => (Raise e, s3)
            end
        | (Return false, s2) =>
            (Return false,
             snd (print [Lit "Sample user provisioning failed"] s2))
        | (Raise e, s2) => (Raise e, s2)
        end
    | (Return false, s1) =>
        (Return false,
         snd (print [Lit "Please ensure the debt collection API is running and accessible"] s1))
    | (Raise e, s1) => (Raise e, s1)
    end
  else
    (Return false,
     snd ((banner >>
           print [Lit "❌ PROVISIONING_API_KEY environment variable not set"] >>
           print [Lit "Please set it with: export PROVISIONING_API_KEY='your-api-key'"])
            s)).
Proof.
  unfold main, at_webhook, at_provisioning, at_connection, configured, banner,
    wrap_up.
  destruct (truthy_str (os_getenv W "PROVISIONING_API_KEY")); [|reflexivity].
  repeat
    (cbv beta iota zeta delta
       [bind print ret negb fst snd write_file stdout http_log clock_reads
        files];
     match goal with
     | |- context [test_connection W ?c ?st] =>
         destruct (test_connection W c st) as [[[|]|?] ?]
     | |- context [provision_sample_users W ?c ?st] =>
         destruct (provision_sample_users W c st) as [[[|]|?] ?]
     | |- context [send_webhook_test W ?c ?st] =>
         destruct (send_webhook_test W c st) as [[[|]|?] ?]
     end);
    reflexivity.
Qed.

Lemma at_connection_same (s : State) :
  http_log (at_connection s) = http_log s /\
  clock_reads (at_connection s) = clock_reads s /\
  files (at_connection s) = files s.
Proof. repeat split. Qed.

Lemma at_provisioning_same (s : State) :
  http_log (at_provisioning W s) = http_log s ++ [health_call (configured W)] /\
  clock_reads (at_provisioning W s) = clock_reads s /\
  files (at_provisioning W s) = files s.
Proof.
  unfold at_provisioning. cbn [print snd http_log clock_reads files].
  rewrite test_connection_log, test_connection_clock, test_connection_files.
  repeat split.
Qed.

Lemma at_webhook_same (s : State) :
  http_log (at_webhook W s) =
    http_log s ++ [health_call (configured W); bulk_call (configured W)] /\
  clock_reads (at_webhook W s) = clock_reads s /\
  files (at_webhook W s) = files s.
Proof.
  unfold at_webhook. cbn [print snd http_log clock_reads files].
  rewrite provision_sample_users_log, provision_sample_users_clock,
    provision_sample_users_files.
  destruct (at_provisioning_same s) as (-> & -> & ->).
  rewrite <- app_assoc. repeat split.
Qed.

(** C6.  With [PROVISIONING_API_KEY] unset, the process prints its banner
    and the two lines of the diagnostic and exits with status 1; it makes
    no call, reads no clock and writes no file. *)
Theorem missing_key_stops_before_network (s : State) :
  os_getenv W "PROVISIONING_API_KEY" = None ->
  fst (__main__ W s) = 1%Z /\
  http_log (snd (__main__ W s)) = http_log s /\
  clock_reads (snd (__main__ W s)) = clock_reads s /\
  files (snd (__main__ W s)) = files s /\
  stdout (snd (__main__ W s)) =
  stdout s
    ++ [ [Lit "🏥 Django Admin - Debt Collection Integration Setup"];
         [Lit (repeat_str "=" 55)];
         [Lit "❌ PROVISIONING_API_KEY environment variable not set"];
         [Lit "Please set it with: export PROVISIONING_API_KEY='your-api-key'"] ].
Proof.
  intros Hunset. unfold __main__. rewrite main_stages, Hunset.
  cbn [truthy_str fst snd]. unfold banner, bind, print.
  cbn [fst snd http_log clock_reads files stdout].
  rewrite <- !app_assoc. repeat split.
Qed.

Lemma wrap_up_same (s : State) :
  http_log (snd (wrap_up W s)) = http_log s /\
  clock_reads (snd (wrap_up W s)) = clock_reads s.
Proof. repeat split. Qed.

Lemma wrap_up_files (s : State) :
  read_file "django_models_example.py" (snd (wrap_up W s)) =
    Some (generate_django_models (configured W)) /\
  read_file "django_admin_example.py" (snd (wrap_up W s)) =
    Some (generate_django_admin (configured W)).
Proof.
  unfold wrap_up.
  generalize (generate_django_models (configured W)) as models.
  generalize (generate_django_admin (configured W)) as admin.
  intros admin models.
  cbv beta iota zeta delta
    [read_file bind print write_file fst snd stdout http_log clock_reads files].
  split.
  - rewrite lookup_insert_ne by discriminate. apply lookup_insert_eq.
  - apply lookup_insert_eq.
Qed.

Lemma with_fst {A B : Type} (p : A * B) (a : A) : fst p = a -> p = (a, snd p).
Proof. intros <-. now destruct p. Qed.

Lemma snd_pair {A B : Type} (a : A) (b : B) : snd (a, b) = b.
Proof. reflexivity. Qed.

(** Where the process ends, by the first step that fails. *)
Lemma exit_without_key (s : State) :
  truthy_str (os_getenv W "PROVISIONING_API_KEY") = false ->
  __main__ W s =
  (1%Z,
   snd ((banner >>
         print [Lit "❌ PROVISIONING_API_KEY environment variable not set"] >>
         print [Lit "Please set it with: export PROVISIONING_API_KEY='your-api-key'"])
          s)).
Proof.
  intros Hkey. unfold __main__. rewrite main_stages, Hkey. reflexivity.
Qed.

Lemma exit_unconnected (s : State) :
  truthy_str (os_getenv W "PROVISIONING_API_KEY") = true ->
  fst (test_connection W (configured W) (at_connection s)) = Return false ->
  __main__ W s =
  (1%Z,
   snd (print [Lit "Please ensure the debt collection API is running and accessible"]
          (snd (test_connection W (configured W) (at_connection s))))).
Proof.
  intros Hkey H1. unfold __main__.
  rewrite main_stages, Hkey, (with_fst _ _ H1). reflexivity.
Qed.

Lemma exit_unprovisioned (s : State) :
  truthy_str (os_getenv W "PROVISIONING_API_KEY") = true ->
  fst (test_connection W (configured W) (at_connection s)) = Return true ->
  fst (provision_sample_users W (configured W) (at_provisioning W s))
    = Return false ->
  __main__ W s =
  (1%Z,
   snd (print [Lit "Sample user provisioning failed"]
          (snd (provision_sample_users W (configured W)
                  (at_provisioning W s))))).
Proof.
  intros Hkey H1 H2. unfold __main__.
  rewrite main_stages, Hkey, (with_fst _ _ H1), (with_fst _ _ H2).
  reflexivity.
Qed.

Lemma exit_undelivered (s : State) :
  truthy_str (os_getenv W "PROVISIONING_API_KEY") = true ->
  fst (test_connection W (configured W) (at_connection s)) = Return true ->
  fst (provision_sample_users W (configured W) (at_provisioning W s))
    = Return true ->
  fst (send_webhook_test W (configured W) (at_webhook W s)) = Return false ->
  __main__ W s =
  (1%Z,
   snd (print [Lit "Webhook test failed"]
          (snd (send_webhook_test W (configured W) (at_webhook W s))))).
Proof.
  intros Hkey H1 H2 H3. unfold __main__.
  rewrite main_stages, Hkey, (with_fst _ _ H1), (with_fst _ _ H2),
    (with_fst _ _ H3).
  reflexivity.
Qed.

Lemma main_complete (s : State) :
  truthy_str (os_getenv W "PROVISIONING_API_KEY") = true ->
  fst (test_connection W (configured W) (at_connection s)) = Return true ->
  fst (provision_sample_users W (configured W) (at_provisioning W s))
    = Return true ->
  fst (send_webhook_test W (configured W) (at_webhook W s)) = Return true ->
  main W s =
  (Return true,
   snd (wrap_up W (snd (send_webhook_test W (configured W) (at_webhook W s))))).
Proof.
  intros Hkey H1 H2 H3.
  rewrite main_stages, Hkey, (with_fst _ _ H1), (with_fst _ _ H2),
    (with_fst _ _ H3).
  reflexivity.
Qed.

Lemma exit_complete (s : State) :
  truthy_str (os_getenv W "PROVISIONING_API_KEY") = true ->
  fst (test_connection W (configured W) (at_connection s)) = Return true ->
  fst (provision_sample_users W (configured W) (at_provisioning W s))
    = Return true ->
  fst (send_webhook_test W (configured W) (at_webhook W s)) = Return true ->
  __main__ W s =
  (0%Z,
   snd (wrap_up W (snd (send_webhook_test W (configured W) (at_webhook W s))))).
Proof.
  intros Hkey H1 H2 H3. unfold __main__.
  rewrite (main_complete s Hkey H1 H2 H3). reflexivity.
Qed.

(** [main] returns [True] only when the key is there and every verb
    returned [True]. *)
Lemma main_true_inv (s : State) :
  fst (main W s) = Return true ->
  truthy_str (os_getenv W "PROVISIONING_API_KEY") = true /\
  fst (test_connection W (configured W) (at_connection s)) = Return true /\
  fst (provision_sample_users W (configured W) (at_provisioning W s))
    = Return true /\
  fst (send_webhook_test W (configured W) (at_webhook W s)) = Return true.
Proof.
  rewrite main_stages.
  destruct (truthy_str (os_getenv W "PROVISIONING_API_KEY"));
    [|discriminate].
  destruct (test_connection W (configured W) (at_connection s))
    as [[[|]|e1] s1]; try discriminate.
  destruct (provision_sample_users W (configured W) (at_provisioning W s))
    as [[[|]|e2] s2]; try discriminate.
  destruct (send_webhook_test W (configured W) (at_webhook W s))
    as [[[|]|e3] s3]; try discriminate.
  intros _. repeat split.
Qed.

(** C1.  [main] runs the credential check and the three verbs in order and
    stops at the first that fails: the process then exits with status 1
    having made only the calls up to the failing step (a failing health
    check is followed by no POST), read no clock before the webhook test
    and written no file.  When all succeed it exits with status 0. *)
Theorem main_stops_at_first_failure (s : State) :
  let key := os_getenv W "PROVISIONING_API_KEY" in
  let setup := configured W in
  let connected := fst (test_connection W setup (at_connection s)) in
  let provisioned :=
    fst (provision_sample_users W setup (at_provisioning W s)) in
  let delivered := fst (send_webhook_test W setup (at_webhook W s)) in
  let event_call :=
    webhook_call setup (clock W (clock_reads s)) (clock W (S (clock_reads s))) in
  let exit := fst (__main__ W s) in
  let final := snd (__main__ W s) in
  (truthy_str key = false ->
     exit = 1%Z /\ http_log final = http_log s /\
     clock_reads final = clock_reads s /\ files final = files s) /\
  (truthy_str key = true -> connected = Return false ->
     exit = 1%Z /\ http_log final = http_log s ++ [health_call setup] /\
     clock_reads final = clock_reads s /\ files final = files s) /\
  (truthy_str key = true -> connected = Return true ->
   provisioned = Return false ->
     exit = 1%Z /\
     http_log final = http_log s ++ [health_call setup; bulk_call setup] /\
     clock_reads final = clock_reads s /\ files final = files s) /\
  (truthy_str key = true -> connected = Return true ->
   provisioned = Return true -> delivered = Return false ->
     exit = 1%Z /\
     http_log final =
       http_log s ++ [health_call setup; bulk_call setup; event_call] /\
     files final = files s) /\
  (truthy_str key = true -> connected = Return true ->
   provisioned = Return true -> delivered = Return true ->
     exit = 0%Z /\
     http_log final =
       http_log s ++ [health_call setup; bulk_call setup; event_call]).
Proof.
  intros key setup connected provisioned delivered event_call exit final.
  subst key setup connected provisioned delivered event_call exit final.
  destruct (at_connection_same s) as (Lc & Cc & Fc).
  destruct (at_provisioning_same s) as (Lp & Cp & Fp).
  destruct (at_webhook_same s) as (Lw & Cw & Fw).
  repeat apply conj.
  - intros Hkey. rewrite (exit_without_key s Hkey). repeat split.
  - intros Hkey H1. rewrite (exit_unconnected s Hkey H1).
    cbn [fst snd print http_log clock_reads files].
    now rewrite test_connection_log, test_connection_clock,
      test_connection_files, Lc, Cc, Fc.
  - intros Hkey H1 H2. rewrite (exit_unprovisioned s Hkey H1 H2).
    cbn [fst snd print http_log clock_reads files].
    now rewrite provision_sample_users_log, provision_sample_users_clock,
      provision_sample_users_files, Lp, Cp, Fp, <- app_assoc.
  - intros Hkey H1 H2 H3. rewrite (exit_undelivered s Hkey H1 H2 H3).
    cbn [fst snd print http_log clock_reads files].
    now rewrite send_webhook_test_log, send_webhook_test_files, Lw, Cw, Fw,
      <- app_assoc.
  - intros Hkey H1 H2 H3. rewrite (exit_complete s Hkey H1 H2 H3).
    split; [reflexivity|].
    rewrite snd_pair, (proj1 (wrap_up_same _)).
    now rewrite send_webhook_test_log, Lw, Cw, <- app_assoc.
Qed.

(** C7.  The two generators are constant functions: any two calls, on any
    clients, return the same text, which is 7-bit text; and once [main] has
    succeeded, reading each of the two files gives back the text its
    generator returns, character for character. *)
Theorem generated_files_round_trip (s : State) (self1 self2 : t) :
  fst (main W s) = Return true ->
  generate_django_models self1 = generate_django_models self2 /\
  generate_django_admin self1 = generate_django_admin self2 /\
  is_ascii_text (generate_django_models self1) = true /\
  is_ascii_text (generate_django_admin self1) = true /\
  read_file "django_models_example.py" (snd (main W s)) =
    Some (generate_django_models self1) /\
  read_file "django_admin_example.py" (snd (main W s)) =
    Some (generate_django_admin self1).
Proof.
  intros Hok. apply main_true_inv in Hok as (Hkey & H1 & H2 & H3).
  split; [reflexivity|]. split; [reflexivity|].
  split; [vm_compute; reflexivity|]. split; [vm_compute; reflexivity|].
  rewrite (main_complete s Hkey H1 H2 H3), snd_pair.
  apply wrap_up_files.
Qed.

End DriverClaims.

Lemma missing_key_sample :
  let W := Samples.world Samples.no_key (Samples.always Samples.ok)
             Samples.frozen true in
  fst (__main__ W initial) = 1%Z /\
  http_log (snd (__main__ W initial)) = [] /\
  clock_reads (snd (__main__ W initial)) = 0 /\
  files (snd (__main__ W initial)) = ∅ /\
  stdout (snd (__main__ W initial)) =
  stdout initial
    ++ [ [Lit "🏥 Django Admin - Debt Collection Integration Setup"];
         [Lit (repeat_str "=" 55)];
         [Lit "❌ PROVISIONING_API_KEY environment variable not set"];
         [Lit "Please set it with: export PROVISIONING_API_KEY='your-api-key'"] ].
Proof.
  intros W. apply (missing_key_stops_before_network W initial). reflexivity.
Defined.

(** The specification's scenario for C1: the health check is answered with
    503, the process exits with status 1 and the only call made is the GET. *)
Lemma health_503_sample :
  let W := Samples.world Samples.with_key (Samples.always Samples.unavailable)
             Samples.frozen true in
  fst (__main__ W initial) = 1%Z /\
  http_log (snd (__main__ W initial)) = [health_call (configured W)] /\
  clock_reads (snd (__main__ W initial)) = 0 /\
  files (snd (__main__ W initial)) = ∅.
Proof.
  intros W.
  apply (proj1 (proj2 (main_stops_at_first_failure W initial)));
    reflexivity.
Defined.

Lemma round_trip_sample :
  let W := Samples.world Samples.with_key (Samples.always Samples.ok)
             Samples.frozen true in
  DebtCollectionSetup.generate_django_models Samples.client =
    DebtCollectionSetup.generate_django_models (configured W) /\
  DebtCollectionSetup.generate_django_admin Samples.client =
    DebtCollectionSetup.generate_django_admin (configured W) /\
  is_ascii_text (DebtCollectionSetup.generate_django_models Samples.client)
    = true /\
  is_ascii_text (DebtCollectionSetup.generate_django_admin Samples.client)
    = true /\
  read_file "django_models_example.py" (snd (main W initial)) =
    Some (DebtCollectionSetup.generate_django_models Samples.client) /\
  read_file "django_admin_example.py" (snd (main W initial)) =
    Some (DebtCollectionSetup.generate_django_admin Samples.client).
Proof.
  intros W.
  apply (generated_files_round_trip W initial Samples.client (configured W)).
  reflexivity.
Defined.

(** * Further properties *)

(** ** What the verbs print and how they end *)

Ltac feed :=
  repeat match goal with
         | H : http _ _ _ = _ |- _ => rewrite H; clear H; simpl
         | H : status_code _ = 200%Z |- _ => rewrite H; clear H; simpl
         | H : status_code _ <> 200%Z |- _ =>
             apply Z.eqb_neq in H; rewrite H; clear H; simpl
         | H : decoded _ = _ |- _ => rewrite H; clear H; simpl
         | H : assoc _ _ = _ |- _ => rewrite H; clear H; simpl
         | H : truthy _ = _ |- _ => rewrite H; clear H; simpl
         end.

Ltac by_trace :=
  intros; unfold handled; unfold_run; simpl in *; feed;
  rewrite <- ?app_assoc; repeat split.

Section VerbTraces.

Import DebtCollectionSetup.

Variable W : World.

(** X1.  When the transport fails, each verb has made its one call, prints
    one line that shows the exception, and returns [False]. *)
Theorem transport_failure_is_reported (self : t) (s : State) :
  let event_call :=
    webhook_call self (clock W (clock_reads s)) (clock W (S (clock_reads s))) in
  (forall detail, http W (http_log s) (health_call self) = Fails detail ->
     test_connection W self s =
     (Return false,
      {| stdout := stdout s
           ++ [[Lit "❌ Connection error: "; Exn (RequestException detail)]];
         http_log := http_log s ++ [health_call self];
         clock_reads := clock_reads s;
         files := files s |})) /\
  (forall detail, http W (http_log s) (bulk_call self) = Fails detail ->
     provision_sample_users W self s =
     (Return false,
      {| stdout := stdout s
           ++ [[Lit "❌ Provisioning error: "; Exn (RequestException detail)]];
         http_log := http_log s ++ [bulk_call self];
         clock_reads := clock_reads s;
         files := files s |})) /\
  (forall detail, http W (http_log s) event_call = Fails detail ->
     send_webhook_test W self s =
     (Return false,
      {| stdout := stdout s
           ++ [[Lit "❌ Webhook test error: "; Exn (RequestException detail)]];
         http_log := http_log s ++ [event_call];
         clock_reads := S (S (clock_reads s));
         files := files s |})).
Proof. intros event_call; subst event_call. repeat split; by_trace. Qed.

(** X2.  On a status other than 200 each verb returns [False] after
    printing the status; [provision_sample_users] alone prints the raw body
    of the answer as well. *)
Theorem bad_status_is_reported (self : t) (s : State) :
  let event_call :=
    webhook_call self (clock W (clock_reads s)) (clock W (S (clock_reads s))) in
  (forall r, http W (http_log s) (health_call self) = Answers r ->
     status_code r <> 200%Z ->
     fst (test_connection W self s) = Return false /\
     stdout (snd (test_connection W self s)) =
     stdout s
       ++ [[Lit "❌ Connection failed with status: "; Int (status_code r)]]) /\
  (forall r, http W (http_log s) (bulk_call self) = Answers r ->
     status_code r <> 200%Z ->
     fst (provision_sample_users W self s) = Return false /\
     stdout (snd (provision_sample_users W self s)) =
     stdout s
       ++ [ [Lit "❌ Provisioning failed with status: "; Int (status_code r)];
            [Lit (text r)] ]) /\
  (forall r, http W (http_log s) event_call = Answers r ->
     status_code r <> 200%Z ->
     fst (send_webhook_test W self s) = Return false /\
     stdout (snd (send_webhook_test W self s)) =
     stdout s
       ++ [[Lit "❌ Webhook test failed with status: "; Int (status_code r)]]).
Proof. intros event_call; subst event_call. repeat split; by_trace. Qed.

(** X3.  A 200 answer whose body is not JSON ends every verb the same
    way: with a requests whose decoding error is a [RequestException] the
    verb returns [False], with an older one the error leaves the verb. *)
Theorem undecodable_body_by_version (self : t) (s : State) :
  let event_call :=
    webhook_call self (clock W (clock_reads s)) (clock W (S (clock_reads s))) in
  let ending :=
    if json_error_is_request_exception W then Return false
    else Raise JSONDecodeError in
  (forall r, http W (http_log s) (health_call self) = Answers r ->
     status_code r = 200%Z -> decoded r = None ->
     fst (test_connection W self s) = ending) /\
  (forall r, http W (http_log s) (bulk_call self) = Answers r ->
     status_code r = 200%Z -> decoded r = None ->
     fst (provision_sample_users W self s) = ending) /\
  (forall r, http W (http_log s) event_call = Answers r ->
     status_code r = 200%Z -> decoded r = None ->
     fst (send_webhook_test W self s) = ending) .
Proof.
  intros event_call ending; subst event_call ending.
  repeat split; intros;
    rewrite ?test_connection_result, ?provision_sample_users_result,
      ?send_webhook_test_result;
    feed; reflexivity.
Qed.

(** X4.  On such an answer [test_connection] has already printed its line
    of success when the decoding fails: the output claims the connection
    and, where the error is caught, reports a connection error right after. *)
Theorem test_connection_claims_success_first (self : t) (s : State)
    (r : Response) :
  http W (http_log s) (health_call self) = Answers r ->
  status_code r = 200%Z ->
  decoded r = None ->
  stdout (snd (test_connection W self s)) =
  stdout s
    ++ [Lit "✅ Successfully connected to debt collection API"]
    :: (if json_error_is_request_exception W
        then [[Lit "❌ Connection error: "; Exn JSONDecodeError]]
        else []) /\
  fst (test_connection W self s) <> Return true.
Proof.
  intros Hpeer H200 Hbody. split.
  - unfold_run. simpl in *. feed.
    destruct (json_error_is_request_exception W); simpl;
      rewrite <- ?app_assoc; reflexivity.
  - rewrite test_connection_result. feed. unfold handled; simpl.
    destruct (json_error_is_request_exception W); discriminate.
Qed.

(** X5.  A 200 answer whose body is JSON but no object (an array, a
    string, a number, [null]) is enough for [test_connection], which returns
    [True]; the two POST verbs index the body by a string and so raise
    [TypeError], whatever the version of requests. *)
Theorem non_object_body (self : t) (s : State) :
  let event_call :=
    webhook_call self (clock W (clock_reads s)) (clock W (S (clock_reads s))) in
  (forall r body, http W (http_log s) (health_call self) = Answers r ->
     status_code r = 200%Z -> decoded r = Some body ->
     is_object body = false ->
     fst (test_connection W self s) = Return true) /\
  (forall r body, http W (http_log s) (bulk_call self) = Answers r ->
     status_code r = 200%Z -> decoded r = Some body ->
     is_object body = false ->
     fst (provision_sample_users W self s) = Raise TypeError) /\
  (forall r body, http W (http_log s) event_call = Answers r ->
     status_code r = 200%Z -> decoded r = Some body ->
     is_object body = false ->
     fst (send_webhook_test W self s) = Raise TypeError).
Proof.
  intros event_call; subst event_call.
  repeat split; intros r body Hpeer H200 Hbody Hshape;
    destruct body; try discriminate;
    rewrite ?test_connection_result, ?provision_sample_users_result,
      ?send_webhook_test_result;
    feed; reflexivity.
Qed.

(** X6.  On a 200 answer that decodes to an object, [send_webhook_test]
    prints its line of success before it looks for [event_id]: with the
    member it then prints that very value and returns [True]; without it the
    [KeyError] leaves the verb after the line of success is out. *)
Theorem send_webhook_test_echoes (self : t) (s : State)
    (r : Response) (items : list (string * value)) :
  http W (http_log s)
    (webhook_call self (clock W (clock_reads s)) (clock W (S (clock_reads s))))
    = Answers r ->
  status_code r = 200%Z ->
  decoded r = Some (VDict items) ->
  match assoc "event_id" items with
  | Some id =>
      fst (send_webhook_test W self s) = Return true /\
      stdout (snd (send_webhook_test W self s)) =
      stdout s ++ [ [Lit "✅ Webhook test successful"];
                    [Lit "Event ID: "; Val id] ]
  | None =>
      fst (send_webhook_test W self s) = Raise (KeyError "event_id") /\
      stdout (snd (send_webhook_test W self s)) =
      stdout s ++ [ [Lit "✅ Webhook test successful"] ]
  end.
Proof.
  intros Hpeer H200 Hbody.
  destruct (assoc "event_id" items) as [id|] eqn:Hid; by_trace.
Qed.

(** X7.  [provision_sample_users] reads [error_count] only when [errors]
    is truthy: on a 200 answer with [success_count] whose [errors] is
    missing or falsy (an empty list, say) it prints the line of success
    alone and returns [True], whether or not [error_count] is there. *)
Theorem no_errors_no_count_needed (self : t) (s : State)
    (r : Response) (items : list (string * value)) (count : value) :
  http W (http_log s) (bulk_call self) = Answers r ->
  status_code r = 200%Z ->
  decoded r = Some (VDict items) ->
  assoc "success_count" items = Some count ->
  match assoc "errors" items with
  | Some errors => truthy errors = false
  | None => True
  end ->
  fst (provision_sample_users W self s) = Return true /\
  stdout (snd (provision_sample_users W self s)) =
  stdout s
    ++ [[Lit "✅ Successfully provisioned "; Val count; Lit " sample users"]].
Proof.
  intros Hpeer H200 Hbody Hcount Herrors.
  destruct (assoc "errors" items) as [errors|] eqn:He; by_trace.
Qed.

(** X8.  When a 200 answer decodes to an object without [success_count],
    [provision_sample_users] raises before it prints anything: the call is
    in the log, the output is as it was. *)
Theorem missing_success_count_prints_nothing (self : t) (s : State)
    (r : Response) (items : list (string * value)) :
  http W (http_log s) (bulk_call self) = Answers r ->
  status_code r = 200%Z ->
  decoded r = Some (VDict items) ->
  assoc "success_count" items = None ->
  provision_sample_users W self s =
  (Raise (KeyError "success_count"),
   {| stdout := stdout s;
      http_log := http_log s ++ [bulk_call self];
      clock_reads := clock_reads s;
      files := files s |}).
Proof. by_trace. Qed.

(** X9.  Two calls of [send_webhook_test] in a row read the clock four
    times and post two events, the first made from the first two reads, the
    second from the next two; the two [event_id]s differ when the first and
    the third read differ. *)
Theorem send_webhook_test_twice (self : t) (s : State) :
  let n := clock_reads s in
  let after_one := snd (send_webhook_test W self s) in
  let after_two := snd (send_webhook_test W self after_one) in
  datetime.valid (clock W n) = true ->
  datetime.valid (clock W (S (S n))) = true ->
  clock W n <> clock W (S (S n)) ->
  clock_reads after_two = S (S (S (S n))) /\
  http_log after_two =
    http_log s
      ++ [ webhook_call self (clock W n) (clock W (S n));
           webhook_call self (clock W (S (S n))) (clock W (S (S (S n)))) ] /\
  posted_field "event_id" (webhook_call self (clock W n) (clock W (S n))) <>
  posted_field "event_id"
    (webhook_call self (clock W (S (S n))) (clock W (S (S (S n))))).
Proof.
  intros n after_one after_two V1 V3 Hmoved.
  subst after_two after_one n.
  rewrite !send_webhook_test_log, !send_webhook_test_clock, <- app_assoc.
  split; [reflexivity|]. split; [reflexivity|].
  unfold posted_field, webhook_call, test_event; simpl.
  intros [= Heq]. apply isoformat_inj in Heq; auto.
Qed.

End VerbTraces.

Lemma transport_failure_sample :
  DebtCollectionSetup.provision_sample_users
    (Samples.world Samples.with_key Samples.unreachable Samples.frozen true)
    Samples.client initial =
  (Return false,
   {| stdout :=
        stdout initial
          ++ [[Lit "❌ Provisioning error: ";
               Exn (RequestException "connection refused")]];
      http_log := http_log initial ++ [bulk_call Samples.client];
      clock_reads := 0;
      files := ∅ |}).
Proof.
  apply (proj1 (proj2 (transport_failure_is_reported
                         (Samples.world Samples.with_key Samples.unreachable
                            Samples.frozen true)
                         Samples.client initial)) "connection refused").
  reflexivity.
Defined.

Lemma bad_status_sample :
  fst (DebtCollectionSetup.provision_sample_users
         (Samples.world Samples.with_key (Samples.always Samples.unavailable)
            Samples.frozen true)
         Samples.client initial) = Return false /\
  stdout (snd (DebtCollectionSetup.provision_sample_users
                 (Samples.world Samples.with_key
                    (Samples.always Samples.unavailable) Samples.frozen true)
                 Samples.client initial)) =
  stdout initial
    ++ [ [Lit "❌ Provisioning failed with status: "; Int 503];
         [Lit "Service Unavailable"] ].
Proof.
  apply (proj1 (proj2 (bad_status_is_reported
                         (Samples.world Samples.with_key
                            (Samples.always Samples.unavailable)
                            Samples.frozen true)
                         Samples.client initial)) Samples.unavailable);
    [reflexivity | discriminate].
Defined.

Lemma undecodable_body_sample :
  fst (DebtCollectionSetup.send_webhook_test
         (Samples.world Samples.with_key (Samples.always Samples.html_page)
            Samples.frozen false)
         Samples.client initial) = Raise JSONDecodeError.
Proof.
  apply (proj2 (proj2 (undecodable_body_by_version
                         (Samples.world Samples.with_key
                            (Samples.always Samples.html_page)
                            Samples.frozen false)
                         Samples.client initial)) Samples.html_page);
    reflexivity.
Defined.

Lemma test_connection_claims_success_sample :
  let W := Samples.world Samples.with_key (Samples.always Samples.html_page)
             Samples.frozen true in
  stdout (snd (DebtCollectionSetup.test_connection W Samples.client initial)) =
  stdout initial
    ++ [ [Lit "✅ Successfully connected to debt collection API"];
         [Lit "❌ Connection error: "; Exn JSONDecodeError] ] /\
  fst (DebtCollectionSetup.test_connection W Samples.client initial)
    <> Return true.
Proof.
  intros W.
  apply (test_connection_claims_success_first W Samples.client initial
           Samples.html_page);
    reflexivity.
Defined.

Lemma non_object_body_sample :
  fst (DebtCollectionSetup.provision_sample_users
         (Samples.world Samples.with_key (Samples.always Samples.array)
            Samples.frozen true)
         Samples.client initial) = Raise TypeError.
Proof.
  apply (proj1 (proj2 (non_object_body
                         (Samples.world Samples.with_key
                            (Samples.always Samples.array) Samples.frozen true)
                         Samples.client initial)) Samples.array (VList []));
    reflexivity.
Defined.

Lemma send_webhook_test_echo_sample :
  let W := Samples.world Samples.with_key (Samples.always Samples.ok)
             Samples.frozen true in
  fst (DebtCollectionSetup.send_webhook_test W Samples.client initial)
    = Return true /\
  stdout (snd (DebtCollectionSetup.send_webhook_test W Samples.client initial))
    = stdout initial
        ++ [ [Lit "✅ Webhook test successful"];
             [Lit "Event ID: "; Val (VStr "test-2024-01-01T00:00:00")] ].
Proof.
  intros W.
  apply (send_webhook_test_echoes W Samples.client initial Samples.ok
           [ ("status", VStr "ok"); ("success_count", VInt 2);
             ("event_id", VStr "test-2024-01-01T00:00:00") ]);
    reflexivity.
Defined.

Lemma no_errors_sample :
  let W := Samples.world Samples.with_key (Samples.always Samples.clean)
             Samples.frozen true in
  fst (DebtCollectionSetup.provision_sample_users W Samples.client initial)
    = Return true /\
  stdout (snd (DebtCollectionSetup.provision_sample_users W Samples.client
                 initial))
    = stdout initial
        ++ [[Lit "✅ Successfully provisioned "; Val (VInt 2);
             Lit " sample users"]].
Proof.
  intros W.
  apply (no_errors_no_count_needed W Samples.client initial Samples.clean
           [ ("success_count", VInt 2); ("errors", VList []) ] (VInt 2));
    reflexivity.
Defined.

Lemma missing_success_count_sample :
  DebtCollectionSetup.provision_sample_users
    (Samples.world Samples.with_key (Samples.always Samples.empty_object)
       Samples.frozen true)
    Samples.client initial =
  (Raise (KeyError "success_count"),
   {| stdout := stdout initial;
      http_log := http_log initial ++ [bulk_call Samples.client];
      clock_reads := clock_reads initial;
      files := files initial |}).
Proof.
  apply (missing_success_count_prints_nothing
           (Samples.world Samples.with_key (Samples.always Samples.empty_object)
              Samples.frozen true)
           Samples.client initial Samples.empty_object []);
    reflexivity.
Defined.

Lemma send_webhook_test_twice_sample :
  let W := Samples.world Samples.with_key (Samples.always Samples.ok)
             Samples.ticking true in
  let after_one :=
    snd (DebtCollectionSetup.send_webhook_test W Samples.client initial) in
  let after_two :=
    snd (DebtCollectionSetup.send_webhook_test W Samples.client after_one) in
  clock_reads after_two = 4 /\
  http_log after_two =
    http_log initial
      ++ [ webhook_call Samples.client (Samples.ticking 0) (Samples.ticking 1);
           webhook_call Samples.client (Samples.ticking 2) (Samples.ticking 3) ]
  /\
  posted_field "event_id"
    (webhook_call Samples.client (Samples.ticking 0) (Samples.ticking 1)) <>
  posted_field "event_id"
    (webhook_call Samples.client (Samples.ticking 2) (Samples.ticking 3)).
Proof.
  intros W.
  apply (send_webhook_test_twice W Samples.client initial);
    [reflexivity | reflexivity | discriminate].
Defined.

(** ** The key of the client *)

Section ClientKey.

Import DebtCollectionSetup.

Variable W : World.

(** X10.  A key given to the constructor is used when it is not empty,
    whatever the environment holds; an empty one counts as none given, and
    the client is the one built from the environment.  The content type is
    always JSON. *)
Theorem explicit_key_wins_unless_empty (base : string) :
  (forall key, key <> "" ->
     api_key (__init__ W base (Some key)) = Some key /\
     headers (__init__ W base (Some key)) !! "Authorization"
       = Some ("Bearer " +:+ key)) /\
  __init__ W base (Some "") = __init__ W base None /\
  (forall given,
     headers (__init__ W base given) !! "Content-Type"
       = Some "application/json").
Proof.
  split; [|split].
  - intros key Hkey. apply String.eqb_neq in Hkey.
    unfold __init__, or_else, truthy_str. rewrite Hkey. simpl.
    split; [reflexivity | apply lookup_insert_eq].
  - reflexivity.
  - intros given. unfold __init__. simpl.
    rewrite lookup_insert_ne by discriminate. apply lookup_insert_eq.
Qed.

End ClientKey.

Lemma explicit_key_sample :
  let W := Samples.world Samples.with_key (Samples.always Samples.ok)
             Samples.frozen true in
  DebtCollectionSetup.api_key
    (DebtCollectionSetup.__init__ W "http://localhost:8080/api" (Some "mine"))
    = Some "mine" /\
  DebtCollectionSetup.headers
    (DebtCollectionSetup.__init__ W "http://localhost:8080/api" (Some "mine"))
    !! "Authorization" = Some "Bearer mine".
Proof.
  intros W.
  apply (proj1 (explicit_key_wins_unless_empty W "http://localhost:8080/api")).
  discriminate.
Defined.

(** ** The run as a whole *)

Section RunFacts.

Import DebtCollectionSetup.

Variable W : World.

Lemma exit_connection_raised (s : State) (e : exn) :
  truthy_str (os_getenv W "PROVISIONING_API_KEY") = true ->
  fst (test_connection W (configured W) (at_connection s)) = Raise e ->
  __main__ W s = (1%Z, snd (test_connection W (configured W) (at_connection s))).
Proof.
  intros Hkey H1. unfold __main__.
  rewrite main_stages, Hkey, (with_fst _ _ H1). reflexivity.
Qed.

Lemma exit_provisioning_raised (s : State) (e : exn) :
  truthy_str (os_getenv W "PROVISIONING_API_KEY") = true ->
  fst (test_connection W (configured W) (at_connection s)) = Return true ->
  fst (provision_sample_users W (configured W) (at_provisioning W s))
    = Raise e ->
  __main__ W s =
  (1%Z, snd (provision_sample_users W (configured W) (at_provisioning W s))).
Proof.
  intros Hkey H1 H2. unfold __main__.
  rewrite main_stages, Hkey, (with_fst _ _ H1), (with_fst _ _ H2).
  reflexivity.
Qed.

Lemma exit_webhook_raised (s : State) (e : exn) :
  truthy_str (os_getenv W "PROVISIONING_API_KEY") = true ->
  fst (test_connection W (configured W) (at_connection s)) = Return true ->
  fst (provision_sample_users W (configured W) (at_provisioning W s))
    = Return true ->
  fst (send_webhook_test W (configured W) (at_webhook W s)) = Raise e ->
  __main__ W s =
  (1%Z, snd (send_webhook_test W (configured W) (at_webhook W s))).
Proof.
  intros Hkey H1 H2 H3. unfold __main__.
  rewrite main_stages, Hkey, (with_fst _ _ H1), (with_fst _ _ H2),
    (with_fst _ _ H3).
  reflexivity.
Qed.

Lemma wrap_up_writes (s : State) :
  files (snd (wrap_up W s)) = with_generated_files W (files s).
Proof.
  unfold wrap_up, with_generated_files.
  generalize (generate_django_models (configured W)) as models.
  generalize (generate_django_admin (configured W)) as admin.
  intros admin models.
  cbv beta iota zeta delta
    [bind print write_file fst snd stdout http_log clock_reads files].
  reflexivity.
Qed.

(** What a run leaves behind: the calls made, the clock reads, the exit
    status and the files, by the step at which it stops. *)
Lemma run_cases (s : State) :
  exists n,
    n <= 3 /\
    http_log (snd (__main__ W s)) = http_log s ++ firstn n (planned_calls W s) /\
    clock_reads (snd (__main__ W s)) =
      (if n =? 3 then 2 else 0) + clock_reads s /\
    (n = 0 <-> truthy_str (os_getenv W "PROVISIONING_API_KEY") = false) /\
    ((fst (__main__ W s) = 0%Z /\ all_steps_succeed W s /\ n = 3 /\
      files (snd (__main__ W s)) = with_generated_files W (files s)) \/
     (fst (__main__ W s) = 1%Z /\ ~ all_steps_succeed W s /\
      files (snd (__main__ W s)) = files s)).
Proof.
  destruct (at_connection_same s) as (Lc & Cc & Fc).
  destruct (at_provisioning_same W s) as (Lp & Cp & Fp).
  destruct (at_webhook_same W s) as (Lw & Cw & Fw).
  unfold all_steps_succeed, planned_calls.
  destruct (truthy_str (os_getenv W "PROVISIONING_API_KEY")) eqn:Hkey.
  2: { exists 0. rewrite (exit_without_key W s Hkey).
       repeat split; try (simpl; lia); try (now rewrite app_nil_r).
       right. repeat split. intros (? & _). discriminate. }
  destruct (fst (test_connection W (configured W) (at_connection s)))
    as [[|]|e1] eqn:H1.
  2: { exists 1. rewrite (exit_unconnected W s Hkey H1).
       cbn [fst snd print http_log clock_reads files firstn Nat.eqb].
       rewrite test_connection_log, test_connection_clock,
         test_connection_files, Lc, Cc, Fc.
       repeat split; try lia; try discriminate.
       right. repeat split. intros (_ & ? & _). discriminate. }
  2: { exists 1. rewrite (exit_connection_raised s e1 Hkey H1).
       cbn [fst snd firstn Nat.eqb].
       rewrite test_connection_log, test_connection_clock,
         test_connection_files, Lc, Cc, Fc.
       repeat split; try lia; try discriminate.
       right. repeat split. intros (_ & ? & _). discriminate. }
  destruct (fst (provision_sample_users W (configured W) (at_provisioning W s)))
    as [[|]|e2] eqn:H2.
  2: { exists 2. rewrite (exit_unprovisioned W s Hkey H1 H2).
       cbn [fst snd print http_log clock_reads files firstn Nat.eqb].
       rewrite provision_sample_users_log, provision_sample_users_clock,
         provision_sample_users_files, Lp, Cp, Fp, <- app_assoc.
       repeat split; try lia; try discriminate.
       right. repeat split. intros (_ & _ & ? & _). discriminate. }
  2: { exists 2. rewrite (exit_provisioning_raised s e2 Hkey H1 H2).
       cbn [fst snd firstn Nat.eqb].
       rewrite provision_sample_users_log, provision_sample_users_clock,
         provision_sample_users_files, Lp, Cp, Fp, <- app_assoc.
       repeat split; try lia; try discriminate.
       right. repeat split. intros (_ & _ & ? & _). discriminate. }
  destruct (fst (send_webhook_test W (configured W) (at_webhook W s)))
    as [[|]|e3] eqn:H3.
  - exists 3. rewrite (exit_complete W s Hkey H1 H2 H3).
    rewrite !snd_pair, (proj1 (wrap_up_same W _)), (proj2 (wrap_up_same W _)),
      wrap_up_writes.
    cbn [fst firstn Nat.eqb].
    rewrite send_webhook_test_log, send_webhook_test_clock,
      send_webhook_test_files, Lw, Cw, Fw, <- app_assoc.
    repeat split; try lia; try discriminate.
    left. repeat split.
  - exists 3. rewrite (exit_undelivered W s Hkey H1 H2 H3).
    cbn [fst snd print http_log clock_reads files firstn Nat.eqb].
    rewrite send_webhook_test_log, send_webhook_test_clock,
      send_webhook_test_files, Lw, Cw, Fw, <- app_assoc.
    repeat split; try lia; try discriminate.
    right. repeat split. intros (_ & _ & _ & ?). discriminate.
  - exists 3. rewrite (exit_webhook_raised s e3 Hkey H1 H2 H3).
    cbn [fst snd firstn Nat.eqb].
    rewrite send_webhook_test_log, send_webhook_test_clock,
      send_webhook_test_files, Lw, Cw, Fw, <- app_assoc.
    repeat split; try lia; try discriminate.
    right. repeat split. intros (_ & _ & _ & ?). discriminate.
Qed.

(** X11.  Whatever the peer answers and however the verbs end, the calls
    of a run are the first [n] of the health GET, the bulk POST and the
    webhook POST, in that order and each at most once; the clock is read
    (twice) only when the third is made; and no call at all is made exactly
    when the key is missing or empty. *)
Theorem main_calls_in_order (s : State) :
  exists n,
    n <= 3 /\
    http_log (snd (__main__ W s)) = http_log s ++ firstn n (planned_calls W s) /\
    clock_reads (snd (__main__ W s)) =
      (if n =? 3 then 2 else 0) + clock_reads s /\
    (n = 0 <-> truthy_str (os_getenv W "PROVISIONING_API_KEY") = false).
Proof.
  destruct (run_cases s) as (n & Hn & Hlog & Hclock & Hkey & _).
  exists n. auto.
Qed.

(** X12.  The exit status is 0 or 1, and it is 0 only for a run in which
    the key is there and all three verbs return [True]: a verb that returns
    [False] or raises gives 1. *)
Theorem exit_zero_iff_all_succeed (s : State) :
  (fst (__main__ W s) = 0%Z <-> all_steps_succeed W s) /\
  (fst (__main__ W s) = 0%Z \/ fst (__main__ W s) = 1%Z).
Proof.
  destruct (run_cases s) as (n & _ & _ & _ & _ & [(H0 & Hall & _) | (H1 & Hnot & _)]).
  - split; [split; auto | left; exact H0].
  - split; [split; [rewrite H1; discriminate | contradiction] | right; exact H1].
Qed.

(** X13.  An exception that leaves a verb ends the run there: the process
    exits with status 1 in the very state the verb left, with no line
    printed after it, no further call and no file written. *)
Theorem exception_ends_run (s : State) (e : exn) :
  truthy_str (os_getenv W "PROVISIONING_API_KEY") = true ->
  (fst (test_connection W (configured W) (at_connection s)) = Raise e ->
   __main__ W s =
   (1%Z, snd (test_connection W (configured W) (at_connection s))) /\
   http_log (snd (__main__ W s)) = http_log s ++ firstn 1 (planned_calls W s) /\
   files (snd (__main__ W s)) = files s) /\
  (fst (test_connection W (configured W) (at_connection s)) = Return true ->
   fst (provision_sample_users W (configured W) (at_provisioning W s))
     = Raise e ->
   __main__ W s =
   (1%Z, snd (provision_sample_users W (configured W) (at_provisioning W s)))
   /\
   http_log (snd (__main__ W s)) = http_log s ++ firstn 2 (planned_calls W s) /\
   files (snd (__main__ W s)) = files s) /\
  (fst (test_connection W (configured W) (at_connection s)) = Return true ->
   fst (provision_sample_users W (configured W) (at_provisioning W s))
     = Return true ->
   fst (send_webhook_test W (configured W) (at_webhook W s)) = Raise e ->
   __main__ W s =
   (1%Z, snd (send_webhook_test W (configured W) (at_webhook W s))) /\
   http_log (snd (__main__ W s)) = http_log s ++ firstn 3 (planned_calls W s) /\
   files (snd (__main__ W s)) = files s).
Proof.
  intros Hkey.
  destruct (at_connection_same s) as (Lc & Cc & Fc).
  destruct (at_provisioning_same W s) as (Lp & Cp & Fp).
  destruct (at_webhook_same W s) as (Lw & Cw & Fw).
  unfold planned_calls. repeat apply conj.
  - intros H1. rewrite (exit_connection_raised s e Hkey H1).
    split; [reflexivity|]. cbn [snd firstn].
    now rewrite test_connection_log, test_connection_files, Lc, Fc.
  - intros H1 H2. rewrite (exit_provisioning_raised s e Hkey H1 H2).
    split; [reflexivity|]. cbn [snd firstn].
    now rewrite provision_sample_users_log, provision_sample_users_files,
      Lp, Fp, <- app_assoc.
  - intros H1 H2 H3. rewrite (exit_webhook_raised s e Hkey H1 H2 H3).
    split; [reflexivity|]. cbn [snd firstn].
    now rewrite send_webhook_test_log, send_webhook_test_files, Lw, Cw, Fw,
      <- app_assoc.
Qed.

(** X14.  Files are written only by a run that exits with 0: a run that
    exits with 1 leaves the working directory as it was, a run that exits
    with 0 leaves it with the two generated files, written over any of
    those names, and in either case every other file is untouched. *)
Theorem files_written_only_on_success (s : State) :
  (fst (__main__ W s) = 1%Z -> files (snd (__main__ W s)) = files s) /\
  (fst (__main__ W s) = 0%Z ->
   files (snd (__main__ W s)) = with_generated_files W (files s)) /\
  (forall name,
     name <> "django_models_example.py" ->
     name <> "django_admin_example.py" ->
     read_file name (snd (__main__ W s)) = read_file name s).
Proof.
  destruct (run_cases s)
    as (n & _ & _ & _ & _ & [(H0 & _ & _ & Hf) | (H1 & _ & Hf)]);
    rewrite ?H0, ?H1; repeat split; intros; try discriminate;
    unfold read_file; rewrite Hf; try reflexivity.
  unfold with_generated_files.
  now rewrite !lookup_insert_ne by congruence.
Qed.

Lemma with_generated_files_twice (dir : gmap string string) :
  with_generated_files W (with_generated_files W dir) =
  with_generated_files W dir.
Proof.
  unfold with_generated_files.
  generalize (generate_django_models (configured W)) as models.
  generalize (generate_django_admin (configured W)) as admin.
  intros admin models.
  rewrite (insert_insert_ne _ "django_models_example.py"
             "django_admin_example.py") by discriminate.
  now rewrite !insert_insert_eq.
Qed.

(** X15.  Running [main] again after a run that succeeded, if that run
    succeeds too, leaves the files exactly as the first run left them. *)
Theorem rerun_keeps_files (s : State) :
  fst (main W s) = Return true ->
  fst (main W (snd (main W s))) = Return true ->
  files (snd (main W (snd (main W s)))) = files (snd (main W s)).
Proof.
  intros Hfirst Hsecond.
  assert (Hfiles : forall st, fst (main W st) = Return true ->
            files (snd (main W st)) = with_generated_files W (files st)).
  { intros st Hok. apply main_true_inv in Hok as (Hkey & H1 & H2 & H3).
    rewrite (main_complete W st Hkey H1 H2 H3), snd_pair, wrap_up_writes.
    destruct (at_webhook_same W st) as (_ & _ & Fw).
    now rewrite send_webhook_test_files, Fw. }
  rewrite (Hfiles _ Hsecond), (Hfiles _ Hfirst).
  apply with_generated_files_twice.
Qed.

(** X16.  Every call a run makes goes to the default base address and
    carries the key of the environment as its bearer token, with the JSON
    content type. *)
Theorem run_carries_key (s : State) (key : string) :
  os_getenv W "PROVISIONING_API_KEY" = Some key ->
  forall call,
    In call (http_log (snd (__main__ W s))) ->
    In call (http_log s) \/
    (requests.headers call !! "Authorization" = Some ("Bearer " +:+ key) /\
     requests.headers call !! "Content-Type" = Some "application/json" /\
     exists path, url call = default_api_base_url +:+ path).
Proof.
  intros Hkey call Hin.
  destruct (run_cases s) as (n & Hn & Hlog & _).
  rewrite Hlog in Hin. apply in_app_or in Hin as [Hold | Hnew];
    [left; exact Hold | right].
  assert (Hplanned : In call (planned_calls W s)).
  { unfold planned_calls in *.
    do 4 (destruct n as [|n]; [simpl in *; tauto|]). lia. }
  assert (Hauth : headers (configured W) !! "Authorization"
                  = Some ("Bearer " +:+ key)).
  { unfold configured, __init__, or_else. rewrite Hkey.
    destruct (truthy_str (Some key)); apply lookup_insert_eq. }
  assert (Htype : headers (configured W) !! "Content-Type"
                  = Some "application/json").
  { unfold configured, __init__. simpl.
    rewrite lookup_insert_ne by discriminate. apply lookup_insert_eq. }
  unfold planned_calls in Hplanned. simpl in Hplanned.
  destruct Hplanned as [<- | [<- | [<- | []]]];
    (split; [exact Hauth | split; [exact Htype | eexists; reflexivity]]).
Qed.

End RunFacts.

Lemma exit_zero_sample :
  let W := Samples.world Samples.with_key (Samples.always Samples.ok)
             Samples.frozen true in
  fst (__main__ W initial) = 0%Z.
Proof.
  intros W. apply (proj1 (exit_zero_iff_all_succeed W initial)).
  repeat split.
Defined.

Lemma exception_ends_run_sample :
  let W := Samples.world Samples.with_key (Samples.always Samples.empty_object)
             Samples.frozen true in
  fst (__main__ W initial) = 1%Z /\
  http_log (snd (__main__ W initial)) =
    [health_call (configured W); bulk_call (configured W)] /\
  files (snd (__main__ W initial)) = ∅.
Proof.
  intros W.
  destruct (proj1 (proj2 (exception_ends_run W initial
                            (KeyError "success_count") eq_refl))
              eq_refl eq_refl) as (Hexit & Hlog & Hfiles).
  rewrite Hexit at 1. rewrite Hlog, Hfiles. repeat split.
Defined.

Lemma files_sample :
  let W := Samples.world Samples.with_key (Samples.always Samples.unavailable)
             Samples.frozen true in
  files (snd (__main__ W initial)) = files initial.
Proof.
  intros W. apply (proj1 (files_written_only_on_success W initial)).
  reflexivity.
Defined.

Lemma rerun_sample :
  let W := Samples.world Samples.with_key (Samples.always Samples.ok)
             Samples.frozen true in
  files (snd (main W (snd (main W initial)))) = files (snd (main W initial)).
Proof.
  intros W. apply (rerun_keeps_files W initial); vm_compute; reflexivity.
Defined.

Lemma run_carries_key_sample :
  let W := Samples.world Samples.with_key (Samples.always Samples.unavailable)
             Samples.frozen true in
  requests.headers (health_call (configured W)) !! "Authorization"
    = Some "Bearer secret" /\
  requests.headers (health_call (configured W)) !! "Content-Type"
    = Some "application/json".
Proof.
  intros W.
  destruct (run_carries_key W initial "secret" eq_refl
              (health_call (configured W)))
    as [[] | (Hauth & Htype & _)];
    [left; reflexivity | split; assumption].
Defined.
